(** * TimeSkill: location resolution and idle-display arbitration

    A shallow embedding of [TimeSkill] (src/__init__.py): the timezone
    resolution of [get_timezone] and the periodic display callback
    [update_display], together with the helpers they call.

    Conventions.
    - Python [str] values are [string]s, the UTF-8 bytes of the text.
      [Py.lower] and [Py.strip] are [str.lower] and [str.strip] on ASCII
      text (every pytz identifier is ASCII); the statements on the alias
      table, whose keys and values are any text, take the two methods as
      parameters.
    - A similarity score is the float [2.0*M/T] of [difflib]; it is kept as
      the rational [2*M/T], whose order against [0.8] and [0.3] is the one
      of the floats for any text shorter than 2^50 characters.
    - A call that can raise returns a [result]; side effects on the
      enclosure, the gui and the dialog services are appended to a trace. *)

From Stdlib Require Import String Ascii List ZArith QArith Bool Lia.
From stdpp Require Import base option list gmap strings.

Local Open Scope string_scope.
Local Open Scope list_scope.

(* ===================================================================== *)
(** ** Python values and built-ins used by the skill *)
(* ===================================================================== *)

(** The values the skill stores in dictionaries: a string, [None], or any
    other object (an integer stands for those). *)
Inductive pyvalue : Type :=
| PyStr (s : string)
| PyNone
| PyInt (z : Z).

(** The exceptions that can leave the modelled methods. *)
Inductive pyexn : Type :=
| AttributeError
| UnknownTimeZoneError.

Inductive result (A : Type) : Type :=
| Ok (a : A)
| Raise (e : pyexn).
Arguments Ok {A} a.
Arguments Raise {A} e.

Module Py.

Definition code (c : ascii) : N := N_of_ascii c.

Definition isupper (c : ascii) : bool := ((65 <=? code c) && (code c <=? 90))%N.
Definition islower (c : ascii) : bool := ((97 <=? code c) && (code c <=? 122))%N.

(** ASCII white space as [str.strip()] sees it. *)
Definition isspace (c : ascii) : bool :=
  (((9 <=? code c) && (code c <=? 13)) || ((28 <=? code c) && (code c <=? 32)))%N.

Definition lower_char (c : ascii) : ascii :=
  if isupper c then ascii_of_N (code c + 32) else c.

(** [s.lower()] for an ASCII [s]: the letters A-Z are folded. *)
Fixpoint lower (s : string) : string :=
  match s with
  | EmptyString => EmptyString
  | String c s' => String (lower_char c) (lower s')
  end.

(** [s.replace(a, b)] for one-character [a] and [b]. *)
Fixpoint replace (a b : ascii) (s : string) : string :=
  match s with
  | EmptyString => EmptyString
  | String c s' => String (if Ascii.eqb c a then b else c) (replace a b s')
  end.

(** [s.split(sep)] for a one-character separator: never the empty list. *)
Fixpoint split (sep : ascii) (s : string) : list string :=
  match s with
  | EmptyString => [EmptyString]
  | String c s' =>
      if Ascii.eqb c sep then EmptyString :: split sep s'
      else match split sep s' with
           | h :: t => String c h :: t
           | [] => [String c EmptyString]
           end
  end.

(** [sep.join(l)] *)
Fixpoint join (sep : string) (l : list string) : string :=
  match l with
  | [] => EmptyString
  | [x] => x
  | x :: l' => x ++ sep ++ join sep l'
  end.

Fixpoint lstrip (s : string) : string :=
  match s with
  | String c s' => if isspace c then lstrip s' else s
  | EmptyString => EmptyString
  end.

Fixpoint rstrip (s : string) : string :=
  match s with
  | EmptyString => EmptyString
  | String c s' =>
      match rstrip s' with
      | EmptyString => if isspace c then EmptyString else String c EmptyString
      | r => String c r
      end
  end.

(** [s.strip()] for an ASCII [s]. *)
Definition strip (s : string) : string := rstrip (lstrip s).

(** [re.sub(r"([a-z])([A-Z])", r"\g<1> \g<2>", s)]: a space goes between
    a lower-case letter and the upper-case letter that follows it.  Two
    matches never overlap, no character being of both classes. *)
Fixpoint sub_camel (s : string) : string :=
  match s with
  | EmptyString => EmptyString
  | String c s' =>
      match s' with
      | String d _ =>
          if islower c && isupper d then String c (String " " (sub_camel s'))
          else String c (sub_camel s')
      | EmptyString => String c EmptyString
      end
  end.

(** [l[i]] with Python's negative indices; the default stands for the
    [IndexError] of an index out of range. *)
Definition getitem (l : list string) (i : Z) : string :=
  let n := Z.of_nat (length l) in
  let j := if (i <? 0)%Z then (n + i)%Z else i in
  if ((0 <=? j) && (j <? n))%Z then nth (Z.to_nat j) l EmptyString
  else EmptyString.

(** Truth value of a string: the empty string is false. *)
Definition truthy (s : string) : bool :=
  match s with EmptyString => false | _ => true end.

Definition Qltb (a b : Q) : bool := negb (Qle_bool b a).

(** [max(a, b, c)]: the first of the largest arguments. *)
Definition max3 (a b c : Q) : Q :=
  let m := if Qltb a b then b else a in
  if Qltb m c then c else m.

End Py.

(* ===================================================================== *)
(** ** [difflib.SequenceMatcher(None, a, b).ratio()]

    [lingua_franca.parse.fuzzy_match(x, against)] is this ratio.  The
    resolution below takes the similarity as a collaborator; this model of
    the library function gives the scenarios their actual scores.  (The
    library's junk heuristic only applies from 200 characters on.) *)
(* ===================================================================== *)

Module Difflib.

(** Length of the common prefix of two lists. *)
Fixpoint common_prefix (a b : list ascii) : nat :=
  match a, b with
  | x :: a', y :: b' => if Ascii.eqb x y then S (common_prefix a' b') else 0
  | _, _ => 0
  end.

(** Best block starting at position [i] of [a]: scanning the start [j]
    in [b] upwards, a block replaces the best one only if longer. *)
Fixpoint best_in_b (a b : list ascii) (i j : nat) (best : nat * nat * nat)
  : nat * nat * nat :=
  match b with
  | [] => best
  | _ :: b' =>
      let k := common_prefix a b in
      let best' := if (snd best <? k)%nat then (i, j, k) else best in
      best_in_b a b' i (S j) best'
  end.

(** [find_longest_match]: the longest common block, the earliest in [a]
    and then the earliest in [b] among the longest. *)
Fixpoint find_longest_match_from (a b : list ascii) (i : nat)
  (best : nat * nat * nat) : nat * nat * nat :=
  match a with
  | [] => best
  | _ :: a' => find_longest_match_from a' b (S i) (best_in_b a b i 0 best)
  end.

Definition find_longest_match (a b : list ascii) : nat * nat * nat :=
  find_longest_match_from a b 0 (0, 0, 0)%nat.

(** Total size of the matching blocks: the longest block, then the same
    to its left and to its right. *)
Fixpoint matches (fuel : nat) (a b : list ascii) : nat :=
  match fuel with
  | O => 0
  | S fuel' =>
      match find_longest_match a b with
      | (i, j, k) =>
          if (k =? 0)%nat then 0
          else (k + matches fuel' (firstn i a) (firstn j b)
                + matches fuel' (skipn (i + k) a) (skipn (j + k) b))%nat
      end
  end.

Definition ratio (x against : string) : Q :=
  let a := list_ascii_of_string x in
  let b := list_ascii_of_string against in
  let T := (length a + length b)%nat in
  if (T =? 0)%nat then 1
  else (2 * Z.of_nat (matches (S (length a)) a b)) # (Pos.of_nat T).

End Difflib.

(* ===================================================================== *)
(** ** Collaborators and effects *)
(* ===================================================================== *)

(** What the skill calls outside of its own file. *)
Class Collaborators : Type := {
  tzinfo : Type;
  datetime : Type;
  (** [self.astral[locale].timezone]; [None] when the lookup raises. *)
  astral_timezone : string -> option string;
  (** [pytz.timezone(zone)]; [None] when it raises. *)
  pytz_timezone : string -> option tzinfo;
  (** [pytz.all_timezones], in its order. *)
  all_timezones : list string;
  (** [self.translate_namedvalues("timezone.value")], in iteration order. *)
  translate_namedvalues : list (string * pyvalue);
  (** [lingua_franca.parse.fuzzy_match] *)
  fuzzy_match : string -> string -> Q;
  (** [self.ask_yesno(prompt, data={"zone_name": say})]; [None] when the
      user gives no answer. *)
  ask_yesno : string -> string -> option string;
  (** The successive readings of [now_utc()]. *)
  now_utc : nat -> datetime;
  (** [dtUTC.astimezone(tz)] *)
  astimezone : datetime -> tzinfo -> datetime;
  (** [nice_time(dt, self.lang, speech=False, use_24hour=self.use_24hour)] *)
  nice_time : datetime -> string;
  (** [day.strftime(fmt)] *)
  strftime : datetime -> string -> string;
  (** [self.config_core.get('date_format')] *)
  date_format : option string;
  (** [self.location_timezone] *)
  location_timezone : string;
  (** [self.platform] *)
  platform : option string
}.

(** Calls to the services around the skill, in the order they are made. *)
Inductive event : Type :=
| EAskYesNo (prompt zone_name : string)
| ESpeakDialog (key : string) (location : option string)
| EGuiClear
| EGuiSet (key : string) (v : pyvalue)
| EGuiShowPage (page : string)
| EDisplayMark1 (display_time : string)
| EMouthReset
| ERemoveActive
| EDeactivateMouthEvents
| EActivateMouthEvents.

(* ===================================================================== *)
(** ** Location resolution: [TimeSkill.get_timezone] *)
(* ===================================================================== *)

Section Resolution.
Context `{C : Collaborators}.

(** Lines 116-123: the score of one catalog name against [target]. *)
Definition name_score (name target : string) : Q :=
  let normalized := Py.split "/" (Py.replace "_" " " (Py.lower name)) in
  if (length normalized =? 1)%nat then
    fuzzy_match (Py.getitem normalized 0) target
  else
    let pct := fuzzy_match (Py.getitem normalized 1) target in
    let pct2 := fuzzy_match
        (Py.getitem normalized (-2) ++ " " ++ Py.getitem normalized (-1)) target in
    let pct3 := fuzzy_match
        (Py.getitem normalized (-1) ++ " " ++ Py.getitem normalized (-2)) target in
    Py.max3 pct pct2 pct3.

(** Lines 124-125: one turn of the loop over the catalog. *)
Definition scan_step (target : string) (best : option (Q * string))
  (name : string) : option (Q * string) :=
  let pct := name_score name target in
  match best with
  | None => Some (pct, name)
  | Some (b, _) => if Qle_bool b pct then Some (pct, name) else best
  end.

(** Lines 113-125: the value of [best] after the loop. *)
Definition scan (catalog : list string) (locale : string)
  : option (Q * string) :=
  fold_left (scan_step (Py.lower locale)) catalog None.

(** The best so far, if any, scores at most [bound]. *)
Definition bounded_by (bound : Q) (best : option (Q * string)) : Prop :=
  forall p n, best = Some (p, n) -> (p <= bound)%Q.

(** Lines 131-135: the speakable name of a zone. *)
Definition say (name : string) : string :=
  Py.join " " (rev (Py.split "/" (Py.replace "_" " " (Py.sub_camel name)))).

(** [return pytz.timezone(name)] *)
Definition return_timezone (name : string) : result (option tzinfo) :=
  match pytz_timezone name with
  | Some tz => Ok (Some tz)
  | None => Raise UnknownTimeZoneError
  end.

(** Lines 126-139: the decision on the best candidate. *)
Definition decide_best (best : option (Q * string))
  : result (option tzinfo) * list event :=
  match best with
  | None => (Ok None, [])
  | Some (pct, name) =>
      if Py.Qltb (8 # 10) pct then (return_timezone name, [])
      else if Py.Qltb (3 # 10) pct then
        let zone_name := say name in
        let asked := [EAskYesNo "did.you.mean.timezone" zone_name] in
        match ask_yesno "did.you.mean.timezone" zone_name with
        | Some "yes" => (return_timezone name, asked)
        | _ => (Ok None, asked)
        end
      else (Ok None, [])
  end.

(** Lines 100-104: the first key of the table equal to [locale] up to
    case, with its value. *)
Definition alias_lookup (table : list (string * pyvalue)) (locale : string)
  : option (string * pyvalue) :=
  find (fun kv => String.eqb (Py.lower locale) (Py.lower (fst kv))) table.

(** [return pytz.timezone(timezones[timezone].strip())] *)
Definition return_alias (v : pyvalue) : result (option tzinfo) :=
  match v with
  | PyStr s => return_timezone (Py.strip s)
  | _ => Raise AttributeError
  end.

(** Lines 85-104: the three exact lookups, in their order; [None] when
    the method goes on to the fuzzy scan. *)
Definition exact_lookup (table : list (string * pyvalue)) (locale : string)
  : option (result (option tzinfo)) :=
  match astral_timezone locale ≫= pytz_timezone with
  | Some tz => Some (Ok (Some tz))
  | None =>
      match pytz_timezone locale with
      | Some tz => Some (Ok (Some tz))
      | None =>
          match alias_lookup table locale with
          | Some (_, v) => Some (return_alias v)
          | None => None
          end
      end
  end.

(** [get_timezone], with the alias table and the catalog made explicit. *)
Definition get_timezone_in (table : list (string * pyvalue))
  (catalog : list string) (locale : string)
  : result (option tzinfo) * list event :=
  match exact_lookup table locale with
  | Some r => (r, [])
  | None => decide_best (scan catalog locale)
  end.

Definition get_timezone (locale : string)
  : result (option tzinfo) * list event :=
  get_timezone_in translate_namedvalues all_timezones locale.

End Resolution.

(* ===================================================================== *)
(** ** The skill object and its methods *)
(* ===================================================================== *)

Section Skill.
Context `{C : Collaborators}.

(** The attributes of [self] that the display logic reads or writes,
    the display registry it shares with the other skills, the number of
    clock readings made so far, and the calls made so far. *)
Record skill : Type := {
  displayed_time : option string;
  display_tz : option tzinfo;
  answering_query : bool;
  (** [self.settings.get("show_time", False)] *)
  show_time : bool;
  gui : gmap string pyvalue;
  (** [self.enclosure.display_manager.get_active()] *)
  active : string;
  clock : nat;
  trace : list event
}.

Definition set_displayed_time (v : option string) (s : skill) : skill :=
  {| displayed_time := v; display_tz := display_tz s;
     answering_query := answering_query s; show_time := show_time s;
     gui := gui s; active := active s; clock := clock s; trace := trace s |}.

Definition set_answering_query (v : bool) (s : skill) : skill :=
  {| displayed_time := displayed_time s; display_tz := display_tz s;
     answering_query := v; show_time := show_time s;
     gui := gui s; active := active s; clock := clock s; trace := trace s |}.

Definition set_gui (v : gmap string pyvalue) (s : skill) : skill :=
  {| displayed_time := displayed_time s; display_tz := display_tz s;
     answering_query := answering_query s; show_time := show_time s;
     gui := v; active := active s; clock := clock s; trace := trace s |}.

Definition set_active (v : string) (s : skill) : skill :=
  {| displayed_time := displayed_time s; display_tz := display_tz s;
     answering_query := answering_query s; show_time := show_time s;
     gui := gui s; active := v; clock := clock s; trace := trace s |}.

Definition set_clock (v : nat) (s : skill) : skill :=
  {| displayed_time := displayed_time s; display_tz := display_tz s;
     answering_query := answering_query s; show_time := show_time s;
     gui := gui s; active := active s; clock := v; trace := trace s |}.

Definition add_trace (l : list event) (s : skill) : skill :=
  {| displayed_time := displayed_time s; display_tz := display_tz s;
     answering_query := answering_query s; show_time := show_time s;
     gui := gui s; active := active s; clock := clock s;
     trace := trace s ++ l |}.

(** A method body: it returns or raises, and leaves a new state. *)
Definition M (A : Type) : Type := skill -> result A * skill.

#[global] Instance M_ret : MRet M := fun A a s => (Ok a, s).
#[global] Instance M_bind : MBind M := fun A B f m s =>
  match m s with
  | (Ok a, s') => f a s'
  | (Raise e, s') => (Raise e, s')
  end.

Definition gets {A : Type} (f : skill -> A) : M A := fun s => (Ok (f s), s).
Definition modify (f : skill -> skill) : M unit := fun s => (Ok tt, f s).
Definition raise {A : Type} (e : pyexn) : M A := fun s => (Raise e, s).
Definition emit (e : event) : M unit := modify (add_trace [e]).
Definition pass : M unit := mret tt.

(** A call to [get_timezone]: its questions join the trace. *)
Definition call {A : Type} (r : result A * list event) : M A :=
  fun s => (fst r, add_trace (snd r) s).

(** [now_utc()] *)
Definition read_now_utc : M datetime :=
  fun s => (Ok (now_utc (clock s)), set_clock (S (clock s)) s).

(** [self.gui[key] = v] *)
Definition gui_set (key : string) (v : pyvalue) : M unit :=
  modify (fun s => set_gui (<[key := v]> (gui s)) s);; emit (EGuiSet key v).

(** [self.gui.clear()] *)
Definition gui_clear : M unit :=
  modify (set_gui ∅);; emit EGuiClear.

Definition of_option (o : option string) : pyvalue :=
  match o with Some t => PyStr t | None => PyNone end.

(** Lines 141-156. *)
Definition get_local_datetime (location : option string)
  (dtUTC : option datetime) : M (option datetime) :=
  dt ← match dtUTC with Some d => mret d | None => read_now_utc end;
  own ← gets display_tz;
  tz ← match own with
       | Some tz => mret (Some tz)
       | None => call (get_timezone location_timezone)
       end;
  tz ← match location with
       | Some l => if Py.truthy l then call (get_timezone l) else mret tz
       | None => mret tz
       end;
  match tz with
  | None => emit (ESpeakDialog "time.tz.not.found" location);; mret None
  | Some z => mret (Some (astimezone dt z))
  end.

(** Lines 158-164; [day.strftime] raises on [None]. *)
Definition get_display_date (day : option datetime)
  (location : option string) : M string :=
  day ← match day with
        | Some d => mret (Some d)
        | None => get_local_datetime location None
        end;
  match day with
  | None => raise AttributeError
  | Some d =>
      if decide (date_format = Some "MDY") then mret (strftime d "%-m/%-d/%Y")
      else mret (strftime d "%Y/%-d/%-m")
  end.

(** Lines 166-173. *)
Definition get_display_current_time (location : option string)
  (dtUTC : option datetime) : M (option string) :=
  dt ← get_local_datetime location dtUTC;
  match dt with
  | None => mret None
  | Some d => mret (Some (nice_time d))
  end.

(** Lines 197-243: the glyphs sent to the Mark 1 face, as one call. *)
Definition display_mark1 (display_time : string) : M unit :=
  emit (EDisplayMark1 display_time).

(** Lines 249-255. *)
Definition display_gui (display_time : string) : M unit :=
  gui_clear;;
  gui_set "time_string" (PyStr display_time);;
  gui_set "ampm_string" (PyStr EmptyString);;
  d ← get_display_date None None;
  gui_set "date_string" (PyStr d);;
  emit (EGuiShowPage "time.qml").

(** Lines 191-195. *)
Definition display (display_time : option string) : M unit :=
  match display_time with
  | Some t =>
      if Py.truthy t then
        (if decide (platform = Some "mycroft_mark_1") then display_mark1 t
         else pass);;
        display_gui t
      else pass
  | None => pass
  end.

(** Lines 257-260. *)
Definition _is_display_idle : M bool :=
  gets (fun s => String.eqb (active s) EmptyString).

(** [self.enclosure.display_manager.remove_active()] *)
Definition remove_active : M unit :=
  modify (set_active EmptyString);; emit ERemoveActive.

(** [self.enclosure.mouth_reset()] *)
Definition mouth_reset : M unit := emit EMouthReset.

(** Truth value of [self.displayed_time]. *)
Definition shown_truthy (o : option string) : bool :=
  match o with Some t => Py.truthy t | None => false end.

(** Lines 268-270: the clock strings of the gui are refreshed. *)
Definition refresh_gui : M unit :=
  t ← get_display_current_time None None;
  gui_set "time_string" (of_option t);;
  d ← get_display_date None None;
  gui_set "date_string" (PyStr d);;
  gui_set "ampm_string" (PyStr EmptyString).

(** Lines 272-291: the idle clock is drawn, left alone or erased. *)
Definition arbitrate (force : bool) : M unit :=
  enabled ← gets show_time;
  if enabled : bool then
    idle ← (if force then mret true else _is_display_idle);
    if idle : bool then
      current_time ← get_display_current_time None None;
      shown ← gets displayed_time;
      if decide (shown = current_time) then pass
      else
        modify (set_displayed_time current_time);;
        display current_time;;
        remove_active
    else modify (set_displayed_time None)
  else
    shown ← gets displayed_time;
    if shown_truthy shown then
      idle ← _is_display_idle;
      (if idle : bool then mouth_reset;; remove_active else pass);;
      modify (set_displayed_time None)
    else pass.

(** Lines 262-291. *)
Definition update_display (force : bool) : M unit :=
  held ← gets answering_query;
  if held : bool then pass
  else refresh_gui;; arbitrate force.

(** Lines 331-333 of [handle_query_time]: the display is taken and the
    answer drawn, before the handler sleeps. *)
Definition handle_query_time_begin (location : option string) : M unit :=
  modify (set_answering_query true);;
  emit EDeactivateMouthEvents;;
  t ← get_display_current_time location None;
  display t.

(** Lines 336-339 of [handle_query_time]: the display is given back,
    once the handler wakes up. *)
Definition handle_query_time_end : M unit :=
  mouth_reset;;
  emit EActivateMouthEvents;;
  modify (set_answering_query false);;
  modify (set_displayed_time None).

(** The periodic callback fired for each flag of the list. *)
Fixpoint ticks (forces : list bool) (s : skill) : skill :=
  match forces with
  | [] => s
  | f :: forces' => ticks forces' (snd (update_display f s))
  end.

(** Events that put something on the display, and the one erasing it. *)
Definition is_draw (e : event) : bool :=
  match e with
  | EGuiShowPage _ | EDisplayMark1 _ => true
  | _ => false
  end.

Definition is_erase (e : event) : bool :=
  match e with EMouthReset => true | _ => false end.

Definition is_show_page (e : event) : bool :=
  match e with EGuiShowPage _ => true | _ => false end.

Definition is_mark1 (e : event) : bool :=
  match e with EDisplayMark1 _ => true | _ => false end.

(** Number of completed calls of [display] in a trace: each ends by
    showing its page. *)
Definition draw_calls (l : list event) : nat :=
  length (List.filter is_show_page l).

(** Number of times the Mark 1 face was drawn. *)
Definition mark1_calls (l : list event) : nat :=
  length (List.filter is_mark1 l).

(** The timezone [get_local_datetime] uses when no location is given. *)
Definition local_timezone (s : skill)
  : result (option tzinfo) * list event :=
  match display_tz s with
  | Some tz => (Ok (Some tz), [])
  | None => get_timezone location_timezone
  end.

(** That timezone is found, and without a question to the user. *)
Definition resolves_to (s : skill) (tz : tzinfo) : Prop :=
  local_timezone s = (Ok (Some tz), []).

(** The clock text and the date made from the [n]-th clock reading. *)
Definition idle_text (tz : tzinfo) (n : nat) : string :=
  nice_time (astimezone (now_utc n) tz).

Definition idle_date (tz : tzinfo) (n : nat) : string :=
  if decide (date_format = Some "MDY")
  then strftime (astimezone (now_utc n) tz) "%-m/%-d/%Y"
  else strftime (astimezone (now_utc n) tz) "%Y/%-d/%-m".

(** Lines 268-270 as calls on the gui, the clock being at its [n]-th
    reading. *)
Definition clock_writes (tz : tzinfo) (n : nat) : list event :=
  [EGuiSet "time_string" (PyStr (idle_text tz n));
   EGuiSet "date_string" (PyStr (idle_date tz (S n)));
   EGuiSet "ampm_string" (PyStr EmptyString)].

(** A method body that only adds calls at the end of the trace. *)
Definition appends {A : Type} (m : M A) : Prop :=
  forall s, exists l, trace (snd (m s)) = trace s ++ l.

(** A method body that leaves [answering_query] as it finds it. *)
Definition keeps_hold {A : Type} (m : M A) : Prop :=
  forall s, answering_query (snd (m s)) = answering_query s.

(** The calls of [display(text)] for a text that is not empty. *)
Definition drawing (text date : string) : list event :=
  (if decide (platform = Some "mycroft_mark_1") then [EDisplayMark1 text]
   else [])
  ++ [EGuiClear; EGuiSet "time_string" (PyStr text);
      EGuiSet "ampm_string" (PyStr EmptyString); EGuiSet "date_string" (PyStr date);
      EGuiShowPage "time.qml"].

(** The state [display(text)] leaves when the timezone is [tz]. *)
Definition displayed (tz : tzinfo) (text : string) (s : skill) : skill :=
  {| displayed_time := displayed_time s; display_tz := display_tz s;
     answering_query := answering_query s; show_time := show_time s;
     gui := <["date_string" := PyStr (idle_date tz (clock s))]>
              (<["ampm_string" := PyStr EmptyString]>
                 (<["time_string" := PyStr text]> ∅));
     active := active s; clock := S (clock s);
     trace := trace s ++ drawing text (idle_date tz (clock s)) |}.

(** The state lines 268-270 leave when the timezone is [tz]. *)
Definition refreshed (tz : tzinfo) (s : skill) : skill :=
  {| displayed_time := displayed_time s; display_tz := display_tz s;
     answering_query := answering_query s; show_time := show_time s;
     gui := <["ampm_string" := PyStr EmptyString]>
              (<["date_string" := PyStr (idle_date tz (S (clock s)))]>
                 (<["time_string" := PyStr (idle_text tz (clock s))]> (gui s)));
     active := active s; clock := S (S (clock s));
     trace := trace s ++ clock_writes tz (clock s) |}.

End Skill.

(* ===================================================================== *)
(** ** The specification's wording of the derived names and scores *)
(* ===================================================================== *)

Section Wording.
Context `{C : Collaborators}.



(** The score of a record when the segment-only score is taken on the
    last path segment. *)
Definition last_segment_score (name target : string) : Q :=
  let segments := Py.split "/" (Py.replace "_" " " (Py.lower name)) in
  let final := List.last segments EmptyString in
  let before := nth (length segments - 2) segments EmptyString in
  Py.max3 (fuzzy_match final target)
          (fuzzy_match (before ++ " " ++ final) target)
          (fuzzy_match (final ++ " " ++ before) target).

End Wording.

(* ===================================================================== *)
(** ** A concrete household *)
(* ===================================================================== *)

Module Scenario.

(** The identifiers quoted in the comments of [get_timezone]. *)
Definition catalog : list string :=
  ["Africa/Abidjan"; "Africa/Accra"; "America/Denver"; "America/New_York";
   "America/North_Dakota/Center"; "Asia/Shanghai"; "Australia/Sydney";
   "Chile/EasterIsland"; "Cuba"; "EST"; "Egypt"; "Etc/GMT+3"; "Etc/Zulu";
   "Europe/Paris"; "US/Eastern"; "UTC"; "Zulu"].

Definition known_zone (zone : string) : option string :=
  if existsb (String.eqb zone) catalog then Some zone else None.

Definition city (locale : string) : option string :=
  if String.eqb locale "Paris" then Some "Europe/Paris"
  else if String.eqb locale "Dallas" then Some "US/Central"
  else None.

Definition two_digits (n : nat) : string :=
  String (ascii_of_nat (48 + n / 10))
    (String (ascii_of_nat (48 + n mod 10)) EmptyString).

(** A clock that starts at 12:30 and gains a minute every [pace]
    readings; a reading is the number of minutes past noon. *)
Definition minutes (pace : nat) (reading : nat) : nat := 30 + reading / pace.

Definition clock_face (minute : nat) : string :=
  "12:" ++ two_digits (minute mod 60).

Definition calendar (day : nat) (fmt : string) : string :=
  if String.eqb fmt "%-m/%-d/%Y" then "11/3/2026" else "2026/3/11".

(** The household: its alias table, its configured timezone, the answer
    its user gives to any question, its device, the pace of its clock. *)
Definition world (table : list (string * pyvalue)) (home : string)
  (answer : option string) (device : option string) (pace : nat)
  : Collaborators :=
  {| tzinfo := string;
     datetime := nat;
     astral_timezone := city;
     pytz_timezone := known_zone;
     all_timezones := catalog;
     translate_namedvalues := table;
     fuzzy_match := Difflib.ratio;
     ask_yesno := fun _ _ => answer;
     now_utc := minutes pace;
     astimezone := fun dt _ => dt;
     nice_time := clock_face;
     strftime := calendar;
     date_format := Some "MDY";
     location_timezone := home;
     platform := device |}.

Definition china : list (string * pyvalue) :=
  [("china", PyStr " Asia/Shanghai ")].

Definition home_world : Collaborators :=
  world china "America/Denver" (Some "yes") None 60.

(** The skill as [__init__] leaves it, on a free display. *)
Definition fresh `{C : Collaborators} : skill :=
  {| displayed_time := None; display_tz := None; answering_query := false;
     show_time := false; gui := ∅; active := EmptyString; clock := 0;
     trace := [] |}.

(** The idle clock is wanted. *)
Definition enabled `{C : Collaborators} : skill :=
  {| displayed_time := None; display_tz := None; answering_query := false;
     show_time := true; gui := ∅; active := EmptyString; clock := 0;
     trace := [] |}.

(** The idle clock is wanted and shows 12:30, another skill has the
    display. *)
Definition busy `{C : Collaborators} : skill :=
  {| displayed_time := Some "12:30"; display_tz := None;
     answering_query := false; show_time := true; gui := ∅;
     active := "WeatherSkill"; clock := 0; trace := [] |}.

(** A query is being answered over an idle clock that showed 12:30. *)
Definition held `{C : Collaborators} : skill :=
  {| displayed_time := Some "12:30"; display_tz := None;
     answering_query := true; show_time := true; gui := ∅;
     active := EmptyString; clock := 0; trace := [] |}.

(** The same, the display registry naming another skill. *)
Definition held_busy `{C : Collaborators} : skill :=
  {| displayed_time := Some "12:30"; display_tz := None;
     answering_query := true; show_time := true; gui := ∅;
     active := "WeatherSkill"; clock := 0; trace := [] |}.

(** A household whose configured timezone is not one the skill finds. *)
Definition lost_world : Collaborators :=
  world china "qqq" (Some "yes") None 60.

End Scenario.


(* ===================================================================== *)
(** ** Location resolution on any text

    A [string] holds the UTF-8 bytes of a Python [str]: two texts are
    equal when their bytes are, and [Py.replace], [Py.split] and
    [Py.sub_camel], whose patterns are ASCII, act on the bytes as the
    built-ins act on the characters.  [str.lower] and [str.strip] follow
    the Unicode tables instead; [Py.lower] and [Py.strip] are these two
    methods on ASCII text only.  [get_timezone] is therefore given once
    more, with the two methods as parameters: what is proved of it holds
    of any query and of any alias table. *)
(* ===================================================================== *)

Section AnyText.
Context `{C : Collaborators}.

(** [str.lower] and [str.strip] *)
Variables lower strip : string -> string.

(** Lines 116-123 *)
Definition name_score_by (name target : string) : Q :=
  let normalized := Py.split "/" (Py.replace "_" " " (lower name)) in
  if (length normalized =? 1)%nat then
    fuzzy_match (Py.getitem normalized 0) target
  else
    let pct := fuzzy_match (Py.getitem normalized 1) target in
    let pct2 := fuzzy_match
        (Py.getitem normalized (-2) ++ " " ++ Py.getitem normalized (-1)) target in
    let pct3 := fuzzy_match
        (Py.getitem normalized (-1) ++ " " ++ Py.getitem normalized (-2)) target in
    Py.max3 pct pct2 pct3.

(** Lines 124-125 *)
Definition scan_step_by (target : string) (best : option (Q * string))
  (name : string) : option (Q * string) :=
  let pct := name_score_by name target in
  match best with
  | None => Some (pct, name)
  | Some (b, _) => if Qle_bool b pct then Some (pct, name) else best
  end.

(** Lines 113-125 *)
Definition scan_by (catalog : list string) (locale : string)
  : option (Q * string) :=
  fold_left (scan_step_by (lower locale)) catalog None.

(** Lines 100-104: the first key of the table whose [lower()] is the one
    of [locale], with its value. *)
Definition alias_lookup_by (table : list (string * pyvalue)) (locale : string)
  : option (string * pyvalue) :=
  find (fun kv => String.eqb (lower locale) (lower (fst kv))) table.

(** [return pytz.timezone(timezones[timezone].strip())] *)
Definition return_alias_by (v : pyvalue) : result (option tzinfo) :=
  match v with
  | PyStr s => return_timezone (strip s)
  | _ => Raise AttributeError
  end.

(** Lines 85-104 *)
Definition exact_lookup_by (table : list (string * pyvalue)) (locale : string)
  : option (result (option tzinfo)) :=
  match astral_timezone locale ≫= pytz_timezone with
  | Some tz => Some (Ok (Some tz))
  | None =>
      match pytz_timezone locale with
      | Some tz => Some (Ok (Some tz))
      | None =>
          match alias_lookup_by table locale with
          | Some (_, v) => Some (return_alias_by v)
          | None => None
          end
      end
  end.

(** [get_timezone], lines 84-139. *)
Definition get_timezone_by (table : list (string * pyvalue))
  (catalog : list string) (locale : string)
  : result (option tzinfo) * list event :=
  match exact_lookup_by table locale with
  | Some r => (r, [])
  | None => decide_best (scan_by catalog locale)
  end.

(** [pytz.timezone] does not see the case of [locale]: it gives it the
    timezone of the identifier of the catalog that [locale] equals up to
    case.  (The lookup of pytz is case-insensitive in its later releases,
    and case-sensitive before.) *)
Definition pytz_folds (locale : string) : Prop :=
  forall id, In id all_timezones -> lower locale = lower id ->
             pytz_timezone locale = pytz_timezone id.

End AnyText.

(* ===================================================================== *)
(** ** More of the built-ins *)
(* ===================================================================== *)

Module PyText.

(** [c in s] for a character [c]. *)
Fixpoint occurs (c : ascii) (s : string) : bool :=
  match s with
  | EmptyString => false
  | String d s' => Ascii.eqb d c || occurs c s'
  end.

(** [a + b in s] for two characters [a] and [b]. *)
Fixpoint contains_pair (a b : ascii) (s : string) : bool :=
  match s with
  | EmptyString => false
  | String c s' =>
      match s' with
      | String d _ =>
          (Ascii.eqb c a && Ascii.eqb d b) || contains_pair a b s'
      | EmptyString => false
      end
  end.

(** [s.replace(a + b, new)] for two characters [a] and [b]: the
    occurrences are taken from left to right and do not overlap. *)
Fixpoint replace_pair (a b : ascii) (new : string) (s : string) : string :=
  match s with
  | EmptyString => EmptyString
  | String c s' =>
      match s' with
      | String d s'' =>
          if Ascii.eqb c a && Ascii.eqb d b
          then new ++ replace_pair a b new s''
          else String c (replace_pair a b new s')
      | EmptyString => String c EmptyString
      end
  end.

(** [s.startswith(p)] *)
Fixpoint startswith (p s : string) : bool :=
  match p, s with
  | EmptyString, _ => true
  | String a p', String c s' => Ascii.eqb a c && startswith p' s'
  | String _ _, EmptyString => false
  end.

(** [p in s] for strings. *)
Fixpoint contains (p s : string) : bool :=
  match s with
  | EmptyString => startswith p EmptyString
  | String _ s' => startswith p s || contains p s'
  end.

(** [s.replace(old, "")] for a non-empty [old], read from left to right;
    [skip] counts the characters of an occurrence still to drop. *)
Fixpoint remove_from (old : string) (skip : nat) (s : string) : string :=
  match s with
  | EmptyString => EmptyString
  | String c s' =>
      match skip with
      | S k => remove_from old k s'
      | O =>
          if startswith old s
          then remove_from old (String.length old - 1) s'
          else String c (remove_from old 0 s')
      end
  end.

Definition remove (old s : string) : string := remove_from old 0 s.

(** [pat and pat[0] == "#"] *)
Definition is_comment (pat : string) : bool :=
  match pat with
  | String c _ => Ascii.eqb c "#"
  | EmptyString => false
  end.

End PyText.

(* ===================================================================== *)
(** ** More of the skill *)
(* ===================================================================== *)

Section MoreSkill.
Context `{C : Collaborators}.

(** A method body that leaves the three settings of [self] as they are:
    the query flag, the idle-display setting and the display timezone. *)
Definition keeps_settings {A : Type} (m : M A) : Prop :=
  forall s,
    answering_query (snd (m s)) = answering_query s
    /\ show_time (snd (m s)) = show_time s
    /\ display_tz (snd (m s)) = display_tz s.

Definition set_display_tz (v : option tzinfo) (s : skill) : skill :=
  {| displayed_time := displayed_time s; display_tz := v;
     answering_query := answering_query s; show_time := show_time s;
     gui := gui s; active := active s; clock := clock s; trace := trace s |}.

Definition set_show_time (v : bool) (s : skill) : skill :=
  {| displayed_time := displayed_time s; display_tz := display_tz s;
     answering_query := answering_query s; show_time := v;
     gui := gui s; active := active s; clock := clock s; trace := trace s |}.

(** Lines 369-385, [location] being what [_extract_location] found in the
    utterance. *)
Definition handle_show_time (location : option string) : M unit :=
  let show := modify (set_show_time true);; update_display true in
  modify (set_display_tz None);;
  match location with
  | Some l =>
      if Py.truthy l then
        tz ← call (get_timezone l);
        match tz with
        | None => emit (ESpeakDialog "time.tz.not.found" location)
        | Some z => modify (set_display_tz (Some z));; show
        end
      else modify (set_display_tz None);; show
  | None => modify (set_display_tz None);; show
  end.

(** [day.strftime(fmt)] on the [day] given or, without one, on the local
    date and time: the body shared by lines 451-464. *)
Definition strftime_of (fmt : string) (day : option datetime)
  (location : option string) : M string :=
  day ← match day with
        | Some d => mret (Some d)
        | None => get_local_datetime location None
        end;
  match day with
  | None => raise AttributeError
  | Some d => mret (strftime d fmt)
  end.

(** Lines 451-454. *)
Definition get_weekday (day : option datetime) (location : option string)
  : M string := strftime_of "%A" day location.

(** Lines 456-459. *)
Definition get_month_date (day : option datetime) (location : option string)
  : M string := strftime_of "%B %d" day location.

(** Lines 461-464. *)
Definition get_year (day : option datetime) (location : option string)
  : M string := strftime_of "%Y" day location.

(** Lines 68-78: the resting page. *)
Definition handle_idle : M unit :=
  gui_clear;;
  t ← get_display_current_time None None;
  gui_set "time_string" (of_option t);;
  gui_set "ampm_string" (PyStr EmptyString);;
  d ← get_display_date None None;
  gui_set "date_string" (PyStr d);;
  w ← get_weekday None None;
  gui_set "weekday_string" (PyStr w);;
  m ← get_month_date None None;
  gui_set "month_string" (PyStr m);;
  y ← get_year None None;
  gui_set "year_string" (PyStr y);;
  emit (EGuiShowPage "idle.qml").

(** Lines 466-472. *)
Definition show_date_gui (location : option string) (day : option datetime)
  : M unit :=
  gui_clear;;
  d ← get_display_date day location;
  gui_set "date_string" (PyStr d);;
  w ← get_weekday day location;
  gui_set "weekday_string" (PyStr w);;
  m ← get_month_date day location;
  gui_set "month_string" (PyStr m);;
  y ← get_year day location;
  gui_set "year_string" (PyStr y);;
  emit (EGuiShowPage "date.qml").

(** Lines 175-189, [spoken dt use_ampm] being
    [nice_time(dt, self.lang, speech=True, use_24hour=self.use_24hour,
    use_ampm=use_ampm)]. *)
Definition get_spoken_current_time (spoken : datetime -> bool -> string)
  (location : option string) (dtUTC : option datetime) (force_ampm : bool)
  : M (option string) :=
  dt ← get_local_datetime location dtUTC;
  match dt with
  | None => mret None
  | Some d =>
      let say_am_pm :=
        match location with Some l => Py.truthy l | None => false end
        || force_ampm in
      let s := spoken d say_am_pm in
      mret (Some (if say_am_pm
                  then PyText.replace_pair "A" "M" "A.M." s
                  else s))
  end.

(** Lines 331-339 of [handle_query_time]: the answer is put on the
    display, the periodic callback fires once for each flag of [forces]
    while the handler sleeps at lines 334-335, and lines 336-339 give the
    display back.  An exception of line 333 leaves the handler there. *)
Definition handle_query_time_show (location : option string)
  (forces : list bool) : M unit :=
  handle_query_time_begin location;;
  modify (ticks forces);;
  handle_query_time_end.

End MoreSkill.

(* ===================================================================== *)
(** ** The location in an utterance: [TimeSkill._extract_location] *)
(* ===================================================================== *)

(** What [re.search(pat, utt)] gives, for a pattern that compiles: no
    match, a match of a pattern without a group named Location (its
    [group] raises [IndexError]), or a match with the value of that group,
    [None] when the group took no part in the match. *)
Inductive re_match : Type :=
| NoMatch
| MatchWithoutGroup
| MatchGroup (location : option string).

(** Lines 303-312: the loop over the lines of the resource. *)
Fixpoint search_lines (search : string -> string -> re_match)
  (lines : list string) (utt : string) : option string :=
  match lines with
  | [] => None
  | pat :: rest =>
      if PyText.is_comment (Py.strip pat) then search_lines search rest utt
      else
        match search (Py.strip pat) utt with
        | MatchGroup location => location
        | _ => search_lines search rest utt
        end
  end.

(** Lines 297-313, [rx_file] being the lines of the resource found by
    [find_resource], if any. *)
Definition _extract_location (search : string -> string -> re_match)
  (rx_file : option (list string)) (utt : string) : option string :=
  match rx_file with
  | Some lines => search_lines search lines utt
  | None => None
  end.

(* ===================================================================== *)
(** ** The Mark 1 face: [TimeSkill.display_mark1] *)
(* ===================================================================== *)

Module Mark1.

(** One call [self.enclosure.mouth_display(img_code, x=x, refresh=False)].
    The offset is the float of line 229, always a whole number. *)
Record mouth_display : Type := { img_code : string; x : Z }.

(** Lines 200-212. *)
Definition code_dict : list (ascii * string) :=
  [(":"%char, "CIICAA"); ("0"%char, "EIMHEEMHAA"); ("1"%char, "EIIEMHAEAA");
   ("2"%char, "EIEHEFMFAA"); ("3"%char, "EIEFEFMHAA"); ("4"%char, "EIMBABMHAA");
   ("5"%char, "EIMFEFEHAA"); ("6"%char, "EIMHEFEHAA"); ("7"%char, "EIEAEAMHAA");
   ("8"%char, "EIMHEFMHAA"); ("9"%char, "EIMBEBMHAA")].

(** [code_dict[c]] when [c in code_dict]. *)
Definition glyph (c : ascii) : option string :=
  snd <$> List.find (fun entry => Ascii.eqb c (fst entry)) code_dict.

(** Lines 230-237: the loop over the characters, from offset [xoffset];
    the calls made and the offset reached. *)
Fixpoint draw_glyphs (display_time : string) (xoffset : Z)
  : list mouth_display * Z :=
  match display_time with
  | EmptyString => ([], xoffset)
  | String c rest =>
      match glyph c with
      | Some code =>
          let next := if Ascii.eqb c ":" then (xoffset + 2)%Z
                      else (xoffset + 4)%Z in
          let (calls, final) := draw_glyphs rest next in
          ({| img_code := code; x := xoffset |} :: calls, final)
      | None => draw_glyphs rest xoffset
      end
  end.

(** Line 229. *)
Definition first_offset (display_time : string) : Z :=
  ((32 - (4 * Z.of_nat (String.length display_time) - 2)) / 2)%Z.

(** Lines 215-226. *)
Definition blanks (display_time : string) : list mouth_display :=
  if (String.length display_time =? 4)%nat
  then [{| img_code := "JIAAAAAAAAAAAAAAAAAA"; x := 0 |};
        {| img_code := "JIAAAAAAAAAAAAAAAAAA"; x := 22 |}]
  else [{| img_code := "HIAAAAAAAAAAAAAA"; x := 0 |};
        {| img_code := "HIAAAAAAAAAAAAAA"; x := 24 |}].

(** Lines 245-247, [response] being what the bus answers: nothing, a
    message without a count, or a message with its count of alarms. *)
Definition _is_alarm_set (response : option (option Z)) : bool :=
  match response with
  | Some (Some active_alarms) => (0 <? active_alarms)%Z
  | Some None => false
  | None => false
  end.

(** Lines 239-243. *)
Definition alarm_dot (alarm : bool) : mouth_display :=
  if alarm then {| img_code := "CIAACA"; x := 29 |}
  else {| img_code := "CIAAAA"; x := 29 |}.

(** Lines 197-243: the calls that make up one drawing of the face. *)
Definition display_mark1_calls (display_time : string)
  (response : option (option Z)) : list mouth_display :=
  blanks display_time
  ++ fst (draw_glyphs display_time (first_offset display_time))
  ++ [alarm_dot (_is_alarm_set response)].

(** The width and the height an image code declares in its first two
    letters, [A] standing for 0. *)
Definition img_width (code : string) : Z :=
  match code with
  | String w _ => Z.of_N (Py.code w) - 65
  | EmptyString => 0
  end.

Definition img_height (code : string) : Z :=
  match code with
  | String _ (String h _) => Z.of_N (Py.code h) - 65
  | _ => 0
  end.

(** An image code holds one letter for every four pixels it declares. *)
Definition well_formed (code : string) : bool :=
  (4 * (Z.of_nat (String.length code) - 2)
   =? img_width code * img_height code)%Z.

(** The calls abut: each one starts where the image before it ends;
    the offset reached, if they do. *)
Fixpoint chain (start : Z) (calls : list mouth_display) : option Z :=
  match calls with
  | [] => Some start
  | call :: rest =>
      if (x call =? start)%Z
      then chain (start + img_width (img_code call)) rest
      else None
  end.

(** A digit or a colon. *)
Definition is_digit (c : ascii) : bool :=
  ((48 <=? Py.code c) && (Py.code c <=? 57))%N.

(** A text of digits around exactly one colon, such as 9:05 or 12:30. *)
Fixpoint colons (s : string) : nat :=
  match s with
  | EmptyString => 0
  | String c s' => (if Ascii.eqb c ":" then 1 else 0) + colons s'
  end.

Fixpoint all_known (s : string) : bool :=
  match s with
  | EmptyString => true
  | String c s' => (is_digit c || Ascii.eqb c ":") && all_known s'
  end.

Definition clock_text (s : string) : Prop :=
  all_known s = true /\ colons s = 1%nat.

End Mark1.

(* ===================================================================== *)
(** ** The holiday asked for: lines 401-414 of [handle_query_date] *)
(* ===================================================================== *)

Section Holidays.
Context {date : Type}.

(** Lines 405-407: the holidays of one state join the dictionary [all],
    a name that is already there keeping its date. *)
Fixpoint add_state (all : list (string * date)) (state : list (date * string))
  : list (string * date) :=
  match state with
  | [] => all
  | (d, name) :: rest =>
      if existsb (fun entry => String.eqb name (fst entry)) all
      then add_state all rest
      else add_state (all ++ [(name, d)]) rest
  end.

(** Lines 401-407, [states] being the holidays of each state in the order
    of [holidays.US.STATES]. *)
Definition all_holidays (states : list (list (date * string)))
  : list (string * date) :=
  fold_left add_state states [].

(** [name.replace(" Day", "").lower()] *)
Definition stem (name : string) : string :=
  Py.lower (PyText.remove " Day" name).

(** Lines 408-414: the date of the first holiday of [all] whose stem is
    in the utterance. *)
Definition requested_holiday (states : list (list (date * string)))
  (utt : string) : option date :=
  snd <$> List.find (fun entry => PyText.contains (stem (fst entry)) utt)
                    (all_holidays states).

(** The first listing of [name] in a run of holidays. *)
Definition listing (name : string) (entry : date * string) : bool :=
  String.eqb name (snd entry).

(** The dictionary holds, for each name, the date of its first listing
    in the holidays read so far. *)
Definition first_dates (all : list (string * date))
  (read : list (date * string)) : Prop :=
  forall name d,
    In (name, d) all <-> List.find (listing name) read = Some (d, name).

End Holidays.

(* ===================================================================== *)
(** ** The timer: [TimeSkill.initialize] *)
(* ===================================================================== *)

Module Schedule.

(** Instants are microseconds on the naive local time line of
    [datetime.datetime.now()]. *)
Definition second : Z := 1000000.
Definition minute : Z := 60 * second.

(** Lines 49-51: [now] cut down to its minute, plus sixty seconds. *)
Definition callback_time (now : Z) : Z := (now - now mod minute + minute)%Z.

(** Line 52: the [k]-th call of [update_display], every ten seconds from
    the callback time. *)
Definition tick_time (now : Z) (k : nat) : Z :=
  (callback_time now + 10 * second * Z.of_nat k)%Z.

End Schedule.

(* ===================================================================== *)
(** ** More of the household *)
(* ===================================================================== *)

Module Household.

(** The idle clock was switched off while it showed 12:29. *)
Definition switched_off `{C : Collaborators} : skill :=
  {| displayed_time := Some "12:29"; display_tz := None;
     answering_query := false; show_time := false; gui := ∅;
     active := EmptyString; clock := 0; trace := [] |}.

(** The idle clock is wanted and showed 12:29, another skill has the
    display. *)
Definition busy_stale `{C : Collaborators} : skill :=
  {| displayed_time := Some "12:29"; display_tz := None;
     answering_query := false; show_time := true; gui := ∅;
     active := "WeatherSkill"; clock := 0; trace := [] |}.

(** A voice that says the face of the clock, and AM when asked to. *)
Definition voice (minute : nat) (use_ampm : bool) : string :=
  (Scenario.clock_face minute ++ (if use_ampm then " AM" else EmptyString))%string.

(** What follows the first [marker] in [utt]. *)
Fixpoint after (marker utt : string) : option string :=
  match utt with
  | EmptyString => None
  | String _ rest =>
      if PyText.startswith marker utt
      then Some (substring (String.length marker)
                           (String.length utt - String.length marker) utt)
      else after marker rest
  end.

(** A regular-expression engine that knows two patterns. *)
Definition search (pat utt : string) : re_match :=
  if String.eqb pat "in (?P<Location>.*)" then
    match after "in " utt with
    | Some place => MatchGroup (Some place)
    | None => NoMatch
    end
  else if String.eqb pat "time" then
    (if PyText.contains "time" utt then MatchWithoutGroup else NoMatch)
  else NoMatch.

Definition location_rx : list string :=
  ["# where the time is asked for"; "time"; "  in (?P<Location>.*)";
   "at (?P<Location>.*)"].

(** A [pytz.timezone] whose lookup is case-insensitive: the identifier of
    the catalog that the name equals up to case. *)
Definition folding_zone (zone : string) : option string :=
  find (fun id => String.eqb (Py.lower zone) (Py.lower id)) Scenario.catalog.

(** The household of [Scenario.home_world] with that pytz. *)
Definition folding_world : Collaborators :=
  {| tzinfo := string;
     datetime := nat;
     astral_timezone := Scenario.city;
     pytz_timezone := folding_zone;
     all_timezones := Scenario.catalog;
     translate_namedvalues := Scenario.china;
     fuzzy_match := Difflib.ratio;
     ask_yesno := fun _ _ => Some "yes";
     now_utc := Scenario.minutes 60;
     astimezone := fun dt _ => dt;
     nice_time := Scenario.clock_face;
     strftime := Scenario.calendar;
     date_format := Some "MDY";
     location_timezone := "America/Denver";
     platform := None |}.

(** The holidays of two states, a date being a month and a day. *)
Definition two_states : list (list (nat * string)) :=
  [[(101, "New Year's Day"); (1225, "Christmas Day")];
   [(704, "Independence Day"); (1224, "Christmas Day")]].

End Household.
(* ===================================================================== *)
(** ** Facts about the built-ins *)
(* ===================================================================== *)

Section PyFacts.

Lemma Qltb_lt (a b : Q) : Py.Qltb a b = true <-> (a < b)%Q.
Proof.
  unfold Py.Qltb. rewrite negb_true_iff, <- not_true_iff_false, Qle_bool_iff.
  split; [apply Qnot_le_lt | apply Qlt_not_le].
Qed.

Lemma Qltb_ge (a b : Q) : Py.Qltb a b = false <-> (b <= a)%Q.
Proof.
  unfold Py.Qltb. rewrite negb_false_iff. apply Qle_bool_iff.
Qed.

(** [max3] is an upper bound of its arguments and is one of them. *)
Lemma max3_upper (a b c : Q) :
  (a <= Py.max3 a b c /\ b <= Py.max3 a b c /\ c <= Py.max3 a b c)%Q.
Proof.
  unfold Py.max3.
  destruct (Py.Qltb a b) eqn:Hab;
    [apply Qltb_lt in Hab | apply Qltb_ge in Hab].
  - destruct (Py.Qltb b c) eqn:Hbc;
      [apply Qltb_lt in Hbc | apply Qltb_ge in Hbc].
    + repeat split; [| apply Qlt_le_weak; assumption | apply Qle_refl].
      apply Qlt_le_weak. eapply Qlt_trans; eassumption.
    + repeat split; [apply Qlt_le_weak; assumption | apply Qle_refl | assumption].
  - destruct (Py.Qltb a c) eqn:Hac;
      [apply Qltb_lt in Hac | apply Qltb_ge in Hac].
    + repeat split; [apply Qlt_le_weak; assumption | | apply Qle_refl].
      eapply Qle_trans; [eassumption | apply Qlt_le_weak; assumption].
    + repeat split; [apply Qle_refl | assumption | assumption].
Qed.

Lemma max3_among (a b c : Q) :
  Py.max3 a b c = a \/ Py.max3 a b c = b \/ Py.max3 a b c = c.
Proof.
  unfold Py.max3.
  destruct (Py.Qltb a b); [destruct (Py.Qltb b c) | destruct (Py.Qltb a c)]; auto.
Qed.

Lemma split_not_nil (sep : ascii) (s : string) : Py.split sep s <> [].
Proof.
  destruct s as [| c s']; simpl; [discriminate |].
  destruct (Ascii.eqb c sep); [discriminate |].
  destruct (Py.split sep s'); discriminate.
Qed.

(** In range, Python's indices are positions counted from either end. *)
Lemma getitem_nonneg (l : list string) (i : nat) (x : string) :
  l !! i = Some x -> Py.getitem l (Z.of_nat i) = x.
Proof.
  intros Hi. unfold Py.getitem.
  pose proof (lookup_lt_Some _ _ _ Hi) as Hlt.
  replace (Z.of_nat i <? 0)%Z with false by (symmetry; apply Z.ltb_ge; lia).
  replace ((0 <=? Z.of_nat i) && (Z.of_nat i <? Z.of_nat (length l)))%Z
    with true.
  - rewrite Nat2Z.id. apply nth_lookup_Some with (d := EmptyString) in Hi.
    exact Hi.
  - symmetry. apply andb_true_iff. split; [apply Z.leb_le | apply Z.ltb_lt]; lia.
Qed.

Lemma getitem_neg (l : list string) (k : nat) (x : string) :
  (0 < k)%nat -> (k <= length l)%nat ->
  l !! (length l - k)%nat = Some x -> Py.getitem l (- Z.of_nat k) = x.
Proof.
  intros Hk Hle Hi. unfold Py.getitem.
  replace (- Z.of_nat k <? 0)%Z with true by (symmetry; apply Z.ltb_lt; lia).
  replace (Z.of_nat (length l) + - Z.of_nat k)%Z
    with (Z.of_nat (length l - k)) by lia.
  replace ((0 <=? Z.of_nat (length l - k))
           && (Z.of_nat (length l - k) <? Z.of_nat (length l)))%Z with true.
  - rewrite Nat2Z.id. apply nth_lookup_Some with (d := EmptyString) in Hi.
    exact Hi.
  - symmetry. apply andb_true_iff. split; [apply Z.leb_le | apply Z.ltb_lt]; lia.
Qed.

End PyFacts.

(* ===================================================================== *)
(** ** The fuzzy scan *)
(* ===================================================================== *)

Section ScanFacts.
Context `{C : Collaborators}.

Lemma scan_step_bounded (target : string) (bound : Q)
  (best : option (Q * string)) (name : string) :
  (name_score name target <= bound)%Q -> bounded_by bound best ->
  bounded_by bound (scan_step target best name).
Proof.
  intros Hname Hbest p n. unfold scan_step.
  destruct best as [[b m] |].
  - destruct (Qle_bool b (name_score name target)).
    + intros [= <- _]. exact Hname.
    + intros Heq. eapply Hbest. exact Heq.
  - intros [= <- _]. exact Hname.
Qed.

Lemma scan_fold_bounded (target : string) (bound : Q) (names : list string) :
  Forall (fun n => (name_score n target <= bound)%Q) names ->
  forall best, bounded_by bound best ->
  bounded_by bound (fold_left (scan_step target) names best).
Proof.
  induction 1 as [| name names Hname _ IH]; intros best Hbest; simpl.
  - exact Hbest.
  - apply IH. apply scan_step_bounded; assumption.
Qed.

(** An entry at least as good as the best so far takes its place. *)
Lemma scan_step_takes (target : string) (best : option (Q * string))
  (name : string) :
  bounded_by (name_score name target) best ->
  scan_step target best name = Some (name_score name target, name).
Proof.
  intros Hbest. unfold scan_step. destruct best as [[b m] |]; [| reflexivity].
  assert (Hle : (b <= name_score name target)%Q) by (eapply Hbest; reflexivity).
  apply Qle_bool_iff in Hle. rewrite Hle. reflexivity.
Qed.

(** Entries strictly worse than the best so far leave it in place. *)
Lemma scan_fold_keeps (target : string) (p : Q) (b : string)
  (names : list string) :
  Forall (fun n => (name_score n target < p)%Q) names ->
  fold_left (scan_step target) names (Some (p, b)) = Some (p, b).
Proof.
  induction 1 as [| name names Hname _ IH]; simpl; [reflexivity |].
  replace (Qle_bool p (name_score name target)) with false; [exact IH |].
  symmetry. apply not_true_iff_false. rewrite Qle_bool_iff.
  apply Qlt_not_le. exact Hname.
Qed.

Lemma scan_app (front back : list string) (locale : string) :
  scan (front ++ back) locale
  = fold_left (scan_step (Py.lower locale)) back (scan front locale).
Proof. unfold scan. apply fold_left_app. Qed.

(** C3. When two entries of the catalog reach the same best score for a
    query (no entry scores higher, and the entries after the second one
    score strictly lower), the scan ends on the second one, the one met
    last: an entry replaces the best so far as soon as its score is
    greater than or equal to it. *)
Theorem scan_tie_last_wins (before between after : list string)
  (a b locale : string) :
  (name_score a (Py.lower locale) == name_score b (Py.lower locale))%Q ->
  Forall (fun n => (name_score n (Py.lower locale)
                    <= name_score b (Py.lower locale))%Q)
         (before ++ between) ->
  Forall (fun n => (name_score n (Py.lower locale)
                    < name_score b (Py.lower locale))%Q) after ->
  scan (before ++ a :: between ++ b :: after) locale
  = Some (name_score b (Py.lower locale), b).
Proof.
  intros Htie Hle Hlt.
  replace (before ++ a :: between ++ b :: after)
    with ((before ++ a :: between) ++ [b] ++ after)
    by (rewrite <- app_assoc; reflexivity).
  rewrite scan_app, fold_left_app. simpl.
  rewrite scan_step_takes.
  - apply scan_fold_keeps. exact Hlt.
  - unfold scan. apply scan_fold_bounded.
    + apply Forall_app in Hle as [Hbefore Hbetween].
      apply Forall_app. split; [exact Hbefore |].
      constructor; [| exact Hbetween].
      rewrite Htie. apply Qle_refl.
    + intros p n [=].
Qed.

End ScanFacts.

Lemma scan_tie_last_wins_witness :
  let C := Scenario.home_world in
  (name_score "Etc/Zulu" (Py.lower "Zulu") == name_score "Zulu" (Py.lower "Zulu"))%Q
  /\ Forall (fun n => (name_score n (Py.lower "Zulu")
                       <= name_score "Zulu" (Py.lower "Zulu"))%Q)
       (firstn 12 Scenario.catalog ++ ["Europe/Paris"; "US/Eastern"; "UTC"])
  /\ Forall (fun n => (name_score n (Py.lower "Zulu")
                       < name_score "Zulu" (Py.lower "Zulu"))%Q) []
  /\ scan Scenario.catalog "Zulu" = Some (name_score "Zulu" (Py.lower "Zulu"), "Zulu").
Proof.
  intros C.
  assert (Htie : (name_score "Etc/Zulu" (Py.lower "Zulu")
                  == name_score "Zulu" (Py.lower "Zulu"))%Q)
    by (vm_compute; reflexivity).
  assert (Hle : Forall (fun n => (name_score n (Py.lower "Zulu")
                                  <= name_score "Zulu" (Py.lower "Zulu"))%Q)
                  (firstn 12 Scenario.catalog ++ ["Europe/Paris"; "US/Eastern"; "UTC"]))
    by (simpl; repeat constructor; vm_compute; discriminate).
  assert (Hlt : Forall (fun n => (name_score n (Py.lower "Zulu")
                                  < name_score "Zulu" (Py.lower "Zulu"))%Q) [])
    by constructor.
  split; [exact Htie |]. split; [exact Hle |]. split; [exact Hlt |].
  exact (scan_tie_last_wins (firstn 12 Scenario.catalog) ["Europe/Paris"; "US/Eastern"; "UTC"] []
           "Etc/Zulu" "Zulu" "Zulu" Htie Hle Hlt).
Defined.

(* ===================================================================== *)
(** ** The speakable name *)
(* ===================================================================== *)

Section SayFacts.










End SayFacts.

(* ===================================================================== *)
(** ** Resolution: scores, thresholds, confirmation *)
(* ===================================================================== *)

Section ResolutionFacts.
Context `{C : Collaborators}.

(** C2 (amended). For a record whose identifier has two or more path
    segments (lower-cased, underscores as spaces), the segment-only score
    is taken on the SECOND segment, which is the last one when there are
    exactly two; the record's score is the maximum of that score and of
    the two compound scores on the last two segments. *)
Theorem name_score_second_segment (name target : string)
  (segments : list string) :
  segments = Py.split "/" (Py.replace "_" " " (Py.lower name)) ->
  (2 <= length segments)%nat ->
  exists second before final : string,
    segments !! 1%nat = Some second
    /\ segments !! (length segments - 2)%nat = Some before
    /\ last segments = Some final
    /\ name_score name target
       = Py.max3 (fuzzy_match second target)
                 (fuzzy_match (before ++ " " ++ final) target)
                 (fuzzy_match (final ++ " " ++ before) target)
    /\ (fuzzy_match second target <= name_score name target
        /\ fuzzy_match (before ++ " " ++ final) target <= name_score name target
        /\ fuzzy_match (final ++ " " ++ before) target <= name_score name target)%Q
    /\ (length segments = 2%nat -> second = final).
Proof.
  intros Hseg Hlen.
  destruct (lookup_lt_is_Some_2 segments 1) as [second H1]; [lia |].
  destruct (lookup_lt_is_Some_2 segments (length segments - 2)) as [before H2];
    [lia |].
  destruct (lookup_lt_is_Some_2 segments (length segments - 1)) as [final H3];
    [lia |].
  assert (Hscore : name_score name target
       = Py.max3 (fuzzy_match second target)
                 (fuzzy_match (before ++ " " ++ final) target)
                 (fuzzy_match (final ++ " " ++ before) target)).
  { unfold name_score. rewrite <- Hseg.
    replace (length segments =? 1)%nat with false
      by (symmetry; apply Nat.eqb_neq; lia).
    assert (G1 : Py.getitem segments 1 = second)
      by (apply (getitem_nonneg segments 1); exact H1).
    assert (G2 : Py.getitem segments (-2) = before)
      by (apply (getitem_neg segments 2); [lia | lia | exact H2]).
    assert (G3 : Py.getitem segments (-1) = final)
      by (apply (getitem_neg segments 1); [lia | lia | exact H3]).
    rewrite G1, G2, G3.
    reflexivity. }
  exists second, before, final.
  split; [exact H1 |]. split; [exact H2 |].
  split; [rewrite last_lookup; replace (Init.Nat.pred (length segments))
            with (length segments - 1)%nat by lia; exact H3 |].
  split; [exact Hscore |].
  split; [rewrite Hscore; apply max3_upper |].
  intros Htwo. rewrite Htwo in H3. simpl in H3. congruence.
Qed.




(** With the ASCII built-ins, the resolution on any text is the one
    above. *)
Lemma get_timezone_by_ascii (table : list (string * pyvalue))
  (catalog : list string) (locale : string) :
  get_timezone_by Py.lower Py.strip table catalog locale
  = get_timezone_in table catalog locale.
Proof. reflexivity. Qed.

Section AnyTextFacts.
Variables lower strip : string -> string.

(** No confirmation is asked when one of the exact lookups applies. *)
Lemma exact_lookup_by_silent (table : list (string * pyvalue))
  (catalog : list string) (locale : string) (r : result (option tzinfo)) :
  exact_lookup_by lower strip table locale = Some r ->
  get_timezone_by lower strip table catalog locale = (r, []).
Proof. intros H. unfold get_timezone_by. rewrite H. reflexivity. Qed.

Lemma alias_lookup_by_first (before after : list (string * pyvalue))
  (key : string) (v : pyvalue) (locale : string) :
  Forall (fun kv => lower locale <> lower (fst kv)) before ->
  lower locale = lower key ->
  alias_lookup_by lower (before ++ (key, v) :: after) locale = Some (key, v).
Proof.
  intros Hbefore Hkey. unfold alias_lookup_by.
  induction Hbefore as [| kv before Hkv _ IH]; simpl.
  - rewrite Hkey, String.eqb_refl. reflexivity.
  - apply String.eqb_neq in Hkv. rewrite Hkv. exact IH.
Qed.

Lemma alias_lookup_by_skip (before after : list (string * pyvalue))
  (key : string) (v : pyvalue) (locale : string) :
  lower locale <> lower key ->
  alias_lookup_by lower (before ++ (key, v) :: after) locale
  = alias_lookup_by lower (before ++ after) locale.
Proof.
  intros Hkey. unfold alias_lookup_by. apply String.eqb_neq in Hkey.
  induction before as [| kv before IH]; simpl.
  - rewrite Hkey. reflexivity.
  - rewrite IH. reflexivity.
Qed.

(** C1 (amended). Take a query that the known-place lookup, tried first,
    does not resolve, and compare it as it is given: it is not trimmed.
    If it equals an identifier of the catalog up to case, the timezone
    that [pytz.timezone] gives that identifier is returned, provided the
    query is the identifier itself or [pytz.timezone] does not see the
    case of the query.  If [pytz.timezone] refuses it and it equals keys
    of the alias table up to case, the timezone mapped by the first of
    them is returned: the one [pytz.timezone] gives its value, trimmed.
    No confirmation is asked in either case. *)
Theorem exact_match_resolves (locale : string) :
  astral_timezone locale ≫= pytz_timezone = None ->
  (forall id tz,
      In id all_timezones ->
      lower locale = lower id ->
      pytz_timezone id = Some tz ->
      locale = id \/ pytz_folds lower locale ->
      get_timezone_by lower strip translate_namedvalues all_timezones locale
      = (Ok (Some tz), []))
  /\ (forall before after key zone tz,
         pytz_timezone locale = None ->
         translate_namedvalues = before ++ (key, PyStr zone) :: after ->
         Forall (fun kv => lower locale <> lower (fst kv)) before ->
         lower locale = lower key ->
         pytz_timezone (strip zone) = Some tz ->
         get_timezone_by lower strip translate_namedvalues all_timezones locale
         = (Ok (Some tz), [])).
Proof.
  intros Hastral. split.
  - intros id tz Hin Hcase Htz Hsame.
    assert (Hlocale : pytz_timezone locale = Some tz).
    { destruct Hsame as [-> | Hfolds]; [exact Htz |].
      rewrite (Hfolds id Hin Hcase). exact Htz. }
    apply exact_lookup_by_silent.
    unfold exact_lookup_by. rewrite Hastral, Hlocale. reflexivity.
  - intros before after key zone tz Hpytz Htable Hbefore Hkey Hzone.
    apply exact_lookup_by_silent. unfold exact_lookup_by.
    rewrite Hastral, Hpytz, Htable.
    rewrite (alias_lookup_by_first _ _ _ _ _ Hbefore Hkey).
    unfold return_alias_by, return_timezone. rewrite Hzone. reflexivity.
Qed.

(** C6 (amended). An entry of the alias table whose key differs from the
    query, case apart, is passed over whatever its value is, a string or
    not: the resolution is the one of the table without that entry. *)
Theorem alias_entry_skipped (before after : list (string * pyvalue))
  (key : string) (v : pyvalue) (catalog : list string) (locale : string) :
  lower locale <> lower key ->
  get_timezone_by lower strip (before ++ (key, v) :: after) catalog locale
  = get_timezone_by lower strip (before ++ after) catalog locale.
Proof.
  intros Hkey. unfold get_timezone_by, exact_lookup_by.
  rewrite (alias_lookup_by_skip _ _ _ _ _ Hkey). reflexivity.
Qed.

End AnyTextFacts.

End ResolutionFacts.

(* ===================================================================== *)
(** ** Resolution in the household *)
(* ===================================================================== *)

Section ResolutionScenarios.
Import Scenario.

Lemma name_score_second_segment_witness :
  let C := home_world in
  ["america"; "north dakota"; "center"]
  = Py.split "/" (Py.replace "_" " " (Py.lower "America/North_Dakota/Center"))
  /\ (2 <= length ["america"; "north dakota"; "center"])%nat
  /\ exists second before final : string,
      ["america"; "north dakota"; "center"] !! 1%nat = Some second
      /\ ["america"; "north dakota"; "center"] !! 1%nat = Some before
      /\ last ["america"; "north dakota"; "center"] = Some final
      /\ name_score "America/North_Dakota/Center" "north dakota"
         = Py.max3 (fuzzy_match second "north dakota")
                   (fuzzy_match (before ++ " " ++ final) "north dakota")
                   (fuzzy_match (final ++ " " ++ before) "north dakota")
      /\ (fuzzy_match second "north dakota"
          <= name_score "America/North_Dakota/Center" "north dakota"
          /\ fuzzy_match (before ++ " " ++ final) "north dakota"
             <= name_score "America/North_Dakota/Center" "north dakota"
          /\ fuzzy_match (final ++ " " ++ before) "north dakota"
             <= name_score "America/North_Dakota/Center" "north dakota")%Q
      /\ (3%nat = 2%nat -> second = final).
Proof.
  intros C.
  split; [reflexivity |]. split; [simpl; lia |].
  exact (name_score_second_segment (C := C) "America/North_Dakota/Center"
           "north dakota" ["america"; "north dakota"; "center"]
           eq_refl (le_S 2 2 (le_n 2))).
Defined.

(** C2, as stated, fails on [America/North_Dakota/Center] for the query
    "north dakota": the code scores the middle segment and finds 1, the
    last segment would give 24/31. *)
Lemma last_segment_score_counterexample :
  let C := home_world in
  (2 <= length (Py.split "/" (Py.replace "_" " "
                  (Py.lower "America/North_Dakota/Center"))))%nat
  /\ (name_score "America/North_Dakota/Center" "north dakota" == 1)%Q
  /\ (last_segment_score "America/North_Dakota/Center" "north dakota"
      == 24 # 31)%Q
  /\ ~ (name_score "America/North_Dakota/Center" "north dakota"
        == last_segment_score "America/North_Dakota/Center" "north dakota")%Q.
Proof.
  intros C. split; [simpl; lia |].
  split; [vm_compute; reflexivity |]. split; [vm_compute; reflexivity |].
  vm_compute. discriminate.
Qed.

(** The query "north dakota" is therefore accepted without a question. *)
Example north_dakota_silent :
  get_timezone (C := home_world) "north dakota"
  = (Ok (Some "America/North_Dakota/Center"), []).
Proof. vm_compute. reflexivity. Qed.



(** No identifier of the catalog but Europe/Paris is EUROPE/PARIS up to
    case. *)
Lemma folding_zone_folds :
  pytz_folds (C := Household.folding_world) Py.lower "EUROPE/PARIS".
Proof.
  intros id Hin Hcase. simpl in Hin.
  repeat (destruct Hin as [<- | Hin]; [try discriminate Hcase; reflexivity |]).
  destruct Hin.
Qed.

Lemma exact_match_resolves_witness :
  let C := Household.folding_world in
  astral_timezone "EUROPE/PARIS" ≫= pytz_timezone = None
  /\ In "Europe/Paris" all_timezones
  /\ Py.lower "EUROPE/PARIS" = Py.lower "Europe/Paris"
  /\ pytz_folds Py.lower "EUROPE/PARIS"
  /\ get_timezone_by Py.lower Py.strip translate_namedvalues all_timezones
       "EUROPE/PARIS"
     = (Ok (Some "Europe/Paris"), [])
  /\ astral_timezone "China" ≫= pytz_timezone = None
  /\ pytz_timezone "China" = None
  /\ get_timezone_by Py.lower Py.strip translate_namedvalues all_timezones
       "China"
     = (Ok (Some "Asia/Shanghai"), []).
Proof.
  intros C.
  assert (Hin : In "Europe/Paris" all_timezones) by (vm_compute; tauto).
  split; [reflexivity |]. split; [exact Hin |]. split; [reflexivity |].
  split; [exact folding_zone_folds |].
  split.
  - exact (proj1 (exact_match_resolves (C := C) Py.lower Py.strip
                    "EUROPE/PARIS" eq_refl)
             "Europe/Paris" "Europe/Paris" Hin eq_refl eq_refl
             (or_intror folding_zone_folds)).
  - split; [reflexivity |]. split; [reflexivity |].
    exact (proj2 (exact_match_resolves (C := C) Py.lower Py.strip "China"
                    eq_refl)
             [] [] "china" " Asia/Shanghai " "Asia/Shanghai"
             eq_refl eq_refl (List.Forall_nil _) eq_refl eq_refl).
Defined.

(** C1, as stated, fails on the query "china " (a space follows): once
    trimmed it is the alias key [china], whose zone is Asia/Shanghai, but
    the code compares it untrimmed, goes on to the fuzzy scan and asks
    whether Cuba was meant. *)
Lemma trimmed_query_counterexample :
  let C := home_world in
  Py.lower (Py.strip "china ") = Py.lower "china"
  /\ In ("china", PyStr " Asia/Shanghai ") translate_namedvalues
  /\ pytz_timezone (Py.strip " Asia/Shanghai ") = Some "Asia/Shanghai"
  /\ get_timezone "china "
     = (Ok (Some "Cuba"), [EAskYesNo "did.you.mean.timezone" "Cuba"])
  /\ get_timezone "china " <> (Ok (Some "Asia/Shanghai"), []).
Proof.
  intros C. split; [reflexivity |]. split; [left; reflexivity |].
  split; [reflexivity |]. split; [vm_compute; reflexivity |].
  vm_compute. discriminate.
Qed.

(** With a [pytz.timezone] that sees the case, a query that is an
    identifier of the catalog in lower case is left to the scan, which
    finds the identifier again but only under the threshold: the user is
    asked. *)
Example case_sensitive_pytz_asks :
  get_timezone (C := home_world) "america/north_dakota/center"
  = (Ok (Some "America/North_Dakota/Center"),
     [EAskYesNo "did.you.mean.timezone" "Center North Dakota America"]).
Proof. vm_compute. reflexivity. Qed.

Lemma alias_entry_skipped_witness :
  let C := home_world in
  Py.lower "china" <> Py.lower "peking"
  /\ get_timezone_by Py.lower Py.strip ([] ++ ("peking", PyNone) :: china)
       catalog "china"
     = get_timezone_by Py.lower Py.strip ([] ++ china) catalog "china".
Proof.
  intros C.
  assert (Hkey : Py.lower "china" <> Py.lower "peking")
    by (vm_compute; discriminate).
  split; [exact Hkey |].
  exact (alias_entry_skipped (C := C) Py.lower Py.strip [] china "peking"
           PyNone catalog "china" Hkey).
Defined.

(** C6, as stated, fails when the key of the malformed entry is the
    query: its value is stripped unchecked and the call raises. *)
Lemma malformed_alias_counterexample :
  let C := world [("china", PyNone)] "America/Denver" (Some "yes") None 8 in
  In ("china", PyNone) translate_namedvalues
  /\ get_timezone "china" = (Raise AttributeError, []).
Proof.
  intros C. split; [left; reflexivity |]. vm_compute. reflexivity.
Qed.

End ResolutionScenarios.

(* ===================================================================== *)
(** ** The periodic callback *)
(* ===================================================================== *)

Section SchedulerFacts.
Context `{C : Collaborators}.

Lemma add_trace_nil (s : skill) : add_trace [] s = s.
Proof. destruct s. unfold add_trace. simpl. rewrite app_nil_r. reflexivity. Qed.

Lemma bind_ok {A B : Type} (m : M A) (f : A -> M B) (s s' : skill) (a : A) :
  m s = (Ok a, s') -> (m ≫= f) s = f a s'.
Proof. intros H. unfold mbind, M_bind. rewrite H. reflexivity. Qed.

Lemma bind_raise {A B : Type} (m : M A) (f : A -> M B) (s s' : skill)
  (e : pyexn) :
  m s = (Raise e, s') -> (m ≫= f) s = (Raise e, s').
Proof. intros H. unfold mbind, M_bind. rewrite H. reflexivity. Qed.

(** A state that keeps [display_tz] keeps the timezone it resolves to. *)
Lemma resolves_to_same_tz (s s' : skill) (tz : tzinfo) :
  display_tz s' = display_tz s -> resolves_to s tz -> resolves_to s' tz.
Proof. unfold resolves_to, local_timezone. intros ->. trivial. Qed.

Lemma get_local_datetime_ok (s : skill) (tz : tzinfo) :
  resolves_to s tz ->
  get_local_datetime None None s
  = (Ok (Some (astimezone (now_utc (clock s)) tz)), set_clock (S (clock s)) s).
Proof.
  unfold resolves_to, local_timezone, get_local_datetime. intros H.
  unfold mbind, M_bind, read_now_utc, gets, call, mret, M_ret. simpl.
  destruct (display_tz s) as [own |] eqn:Hown.
  - injection H as ->. reflexivity.
  - rewrite H. simpl. rewrite add_trace_nil. reflexivity.
Qed.

Lemma get_display_current_time_ok (s : skill) (tz : tzinfo) :
  resolves_to s tz ->
  get_display_current_time None None s
  = (Ok (Some (idle_text tz (clock s))), set_clock (S (clock s)) s).
Proof.
  intros H. unfold get_display_current_time.
  rewrite (bind_ok _ _ _ _ _ (get_local_datetime_ok s tz H)). reflexivity.
Qed.

Lemma get_display_date_ok (s : skill) (tz : tzinfo) :
  resolves_to s tz ->
  get_display_date None None s
  = (Ok (idle_date tz (clock s)), set_clock (S (clock s)) s).
Proof.
  intros H. unfold get_display_date.
  rewrite (bind_ok _ _ _ _ _ (get_local_datetime_ok s tz H)).
  unfold idle_date. destruct (decide (date_format = Some "MDY")); reflexivity.
Qed.

End SchedulerFacts.

(** Unfolds the field updates of a state and flattens its trace. *)
Ltac norm_state :=
  cbn [displayed_time display_tz answering_query show_time gui active clock
       trace displayed refreshed add_trace set_gui set_clock set_active
       set_displayed_time set_answering_query of_option fst snd];
  rewrite <- ?app_assoc; cbn [app].

Section TickFacts.
Context `{C : Collaborators}.

Lemma skill_ext (a b : skill) :
  displayed_time a = displayed_time b -> display_tz a = display_tz b ->
  answering_query a = answering_query b -> show_time a = show_time b ->
  gui a = gui b -> active a = active b -> clock a = clock b ->
  trace a = trace b -> a = b.
Proof. destruct a, b. simpl. intros. subst. reflexivity. Qed.

(** Two runs end in the same state, field by field. *)
Ltac same_state :=
  apply (f_equal (pair (Ok tt))); apply skill_ext; norm_state; reflexivity.

Lemma gui_set_ok (key : string) (v : pyvalue) (s : skill) :
  gui_set key v s
  = (Ok tt, add_trace [EGuiSet key v] (set_gui (<[key := v]> (gui s)) s)).
Proof. reflexivity. Qed.

Lemma gui_clear_ok (s : skill) :
  gui_clear s = (Ok tt, add_trace [EGuiClear] (set_gui ∅ s)).
Proof. reflexivity. Qed.

Lemma remove_active_ok (s : skill) :
  remove_active s = (Ok tt, add_trace [ERemoveActive] (set_active EmptyString s)).
Proof. reflexivity. Qed.

Lemma emit_ok (e : event) (s : skill) : emit e s = (Ok tt, add_trace [e] s).
Proof. reflexivity. Qed.

Lemma modify_ok (f : skill -> skill) (s : skill) : modify f s = (Ok tt, f s).
Proof. reflexivity. Qed.

Lemma gets_ok {A : Type} (f : skill -> A) (s : skill) : gets f s = (Ok (f s), s).
Proof. reflexivity. Qed.

Lemma refresh_gui_ok (s : skill) (tz : tzinfo) :
  resolves_to s tz -> refresh_gui s = (Ok tt, refreshed tz s).
Proof.
  intros H. unfold refresh_gui.
  rewrite (bind_ok _ _ _ _ _ (get_display_current_time_ok s tz H)).
  rewrite (bind_ok _ _ _ _ _ (gui_set_ok _ _ _)).
  erewrite bind_ok
    by (apply get_display_date_ok with (tz := tz);
        eapply resolves_to_same_tz; [| exact H]; reflexivity).
  rewrite (bind_ok _ _ _ _ _ (gui_set_ok _ _ _)).
  rewrite gui_set_ok. unfold clock_writes. same_state.
Qed.

Lemma update_display_held (force : bool) (s : skill) :
  answering_query s = true -> update_display force s = (Ok tt, s).
Proof.
  intros H. unfold update_display.
  rewrite (bind_ok _ _ _ _ _ (gets_ok _ _)), H. reflexivity.
Qed.

(** Outside of a query, with a timezone at hand, a tick is lines 272-291
    run on the refreshed state. *)
Lemma update_display_free (force : bool) (s : skill) (tz : tzinfo) :
  answering_query s = false -> resolves_to s tz ->
  update_display force s = arbitrate force (refreshed tz s).
Proof.
  intros Hq Htz. unfold update_display.
  rewrite (bind_ok _ _ _ _ _ (gets_ok _ _)), Hq.
  rewrite (bind_ok _ _ _ _ _ (refresh_gui_ok s tz Htz)). reflexivity.
Qed.

Lemma resolves_to_refreshed (s : skill) (tz : tzinfo) :
  resolves_to s tz -> resolves_to (refreshed tz s) tz.
Proof. apply resolves_to_same_tz. reflexivity. Qed.

(** One statement of a method body is run. *)
Ltac step tz H :=
  first
    [ rewrite (bind_ok _ _ _ _ _ (gets_ok _ _))
    | rewrite (bind_ok _ _ _ _ _ (modify_ok _ _))
    | rewrite (bind_ok _ _ _ _ _ (gui_set_ok _ _ _))
    | rewrite (bind_ok _ _ _ _ _ (gui_clear_ok _))
    | rewrite (bind_ok _ _ _ _ _ (emit_ok _ _))
    | rewrite (bind_ok _ _ _ _ _ (remove_active_ok _))
    | erewrite bind_ok
        by (apply get_display_date_ok with (tz := tz);
            eapply resolves_to_same_tz; [| exact H]; reflexivity)
    | erewrite bind_ok
        by (apply get_display_current_time_ok with (tz := tz);
            eapply resolves_to_same_tz; [| exact H]; reflexivity) ].

Lemma display_ok (s : skill) (tz : tzinfo) (text : string) :
  Py.truthy text = true -> resolves_to s tz ->
  display (Some text) s = (Ok tt, displayed tz text s).
Proof.
  intros Htext H. unfold display, display_gui, display_mark1.
  rewrite Htext.
  destruct (decide (platform = Some "mycroft_mark_1")) as [Hmark | Hother].
  - repeat step tz H. rewrite emit_ok.
    apply (f_equal (pair (Ok tt))); apply skill_ext; norm_state;
      try reflexivity.
    unfold drawing. rewrite (decide_True _ _ Hmark). reflexivity.
  - unfold pass. rewrite (bind_ok _ _ s s tt) by reflexivity.
    repeat step tz H. rewrite emit_ok.
    apply (f_equal (pair (Ok tt))); apply skill_ext; norm_state;
      try reflexivity.
    unfold drawing. rewrite (decide_False _ _ Hother). reflexivity.
Qed.

(** Line 282: the display is taken, the cache is dropped. *)
Lemma arbitrate_busy (s : skill) :
  show_time s = true -> active s <> EmptyString ->
  arbitrate false s = (Ok tt, set_displayed_time None s).
Proof.
  intros Hshow Hbusy. unfold arbitrate, _is_display_idle.
  step tt tt. rewrite Hshow. step tt tt.
  apply String.eqb_neq in Hbusy. rewrite Hbusy. reflexivity.
Qed.

(** Line 276: the text already shown is not drawn again. *)
Lemma arbitrate_same (s : skill) (tz : tzinfo) :
  show_time s = true -> active s = EmptyString -> resolves_to s tz ->
  displayed_time s = Some (idle_text tz (clock s)) ->
  arbitrate false s = (Ok tt, set_clock (S (clock s)) s).
Proof.
  intros Hshow Hfree H Hsame. unfold arbitrate, _is_display_idle.
  step tz H. rewrite Hshow. step tz H. rewrite Hfree. cbn [String.eqb].
  step tz H. step tz H. cbn [displayed_time set_clock]. rewrite Hsame.
  destruct (decide (Some (idle_text tz (clock s)) = Some (idle_text tz (clock s))));
    [reflexivity | congruence].
Qed.

(** Lines 277-280: a new text is cached, drawn, and the display freed. *)
Lemma arbitrate_draw (s : skill) (tz : tzinfo) :
  show_time s = true -> active s = EmptyString -> resolves_to s tz ->
  displayed_time s <> Some (idle_text tz (clock s)) ->
  Py.truthy (idle_text tz (clock s)) = true ->
  arbitrate false s
  = (Ok tt,
     add_trace [ERemoveActive]
       (set_active EmptyString
          (displayed tz (idle_text tz (clock s))
             (set_displayed_time (Some (idle_text tz (clock s)))
                (set_clock (S (clock s)) s))))).
Proof.
  intros Hshow Hfree H Hnew Htext. unfold arbitrate, _is_display_idle.
  step tz H. rewrite Hshow. step tz H. rewrite Hfree. cbn [String.eqb].
  step tz H. step tz H. cbn [displayed_time set_clock].
  destruct (decide (displayed_time s = Some (idle_text tz (clock s))));
    [contradiction |].
  step tz H.
  erewrite bind_ok
    by (apply display_ok with (tz := tz);
        [exact Htext | eapply resolves_to_same_tz; [| exact H]; reflexivity]).
  rewrite remove_active_ok. reflexivity.
Qed.

(** Lines 277-280 for an empty text: nothing is drawn. *)
Lemma arbitrate_blank (s : skill) (tz : tzinfo) :
  show_time s = true -> active s = EmptyString -> resolves_to s tz ->
  displayed_time s <> Some (idle_text tz (clock s)) ->
  Py.truthy (idle_text tz (clock s)) = false ->
  arbitrate false s
  = (Ok tt,
     add_trace [ERemoveActive]
       (set_active EmptyString
          (set_displayed_time (Some (idle_text tz (clock s)))
             (set_clock (S (clock s)) s)))).
Proof.
  intros Hshow Hfree H Hnew Htext. unfold arbitrate, _is_display_idle.
  step tz H. rewrite Hshow. step tz H. rewrite Hfree. cbn [String.eqb].
  step tz H. step tz H. cbn [displayed_time set_clock].
  destruct (decide (displayed_time s = Some (idle_text tz (clock s))));
    [contradiction |].
  step tz H. unfold display. rewrite Htext. unfold pass.
  rewrite (bind_ok _ _ _ _ tt) by reflexivity.
  rewrite remove_active_ok. reflexivity.
Qed.

Lemma handle_query_time_end_ok (s : skill) :
  handle_query_time_end s
  = (Ok tt,
     set_displayed_time None
       (set_answering_query false
          (add_trace [EMouthReset; EActivateMouthEvents] s))).
Proof.
  unfold handle_query_time_end, mouth_reset. repeat step tt tt.
  rewrite modify_ok. same_state.
Qed.

Lemma ticks_held (forces : list bool) (s : skill) :
  answering_query s = true -> ticks forces s = s.
Proof.
  intros Hheld. induction forces as [| force forces IH]; [reflexivity |].
  simpl. rewrite (update_display_held force s Hheld). exact IH.
Qed.

(** C7. While [answering_query] is true, any number of ticks, forced or
    not, leaves the whole state as it is, its trace included: nothing is
    drawn and nothing is erased.  Once lines 336-339 of the handler have
    put the flag back to false, the next tick draws again if the idle
    display is enabled, the display free and the clock text not empty. *)
Theorem exclusive_hold_suspends_ticks (forces : list bool) (s : skill) :
  answering_query s = true ->
  ticks forces s = s
  /\ answering_query (snd (handle_query_time_end (ticks forces s))) = false
  /\ forall tz : tzinfo,
      show_time s = true ->
      active (snd (handle_query_time_end s)) = EmptyString ->
      resolves_to s tz ->
      Py.truthy (idle_text tz (S (S (clock s)))) = true ->
      exists drawn : list event,
        trace (snd (update_display false
                      (snd (handle_query_time_end (ticks forces s)))))
        = trace (snd (handle_query_time_end (ticks forces s))) ++ drawn
        /\ draw_calls drawn = 1%nat.
Proof.
  intros Hheld.
  rewrite (ticks_held forces s Hheld).
  rewrite handle_query_time_end_ok. cbn [snd].
  split; [reflexivity |]. split; [reflexivity |].
  intros tz Hshow Hfree H Htext.
  set (s0 := set_displayed_time None _) in *.
  assert (H0 : resolves_to s0 tz)
    by (eapply resolves_to_same_tz; [| exact H]; reflexivity).
  rewrite (update_display_free false s0 tz eq_refl H0).
  rewrite (arbitrate_draw (refreshed tz s0) tz).
  - exists (clock_writes tz (clock s)
            ++ drawing (idle_text tz (S (S (clock s))))
                 (idle_date tz (S (S (S (clock s)))))
            ++ [ERemoveActive]).
    split.
    + subst s0. cbn [snd]. norm_state. reflexivity.
    + unfold draw_calls, drawing, clock_writes.
      destruct (decide (platform = Some "mycroft_mark_1")); reflexivity.
  - exact Hshow.
  - exact Hfree.
  - apply resolves_to_refreshed. exact H0.
  - discriminate.
  - exact Htext.
Qed.

(** C9 (amended). On a tick taken outside of a query ([answering_query]
    false) for which the clock strings can be computed, with the idle
    display enabled, not forced, and a display registry naming an owner,
    nothing is drawn or erased and [displayed_time] becomes [None]. *)
Theorem busy_display_defers (s : skill) (tz : tzinfo) :
  answering_query s = false ->
  show_time s = true ->
  active s <> EmptyString ->
  resolves_to s tz ->
  fst (update_display false s) = Ok tt
  /\ displayed_time (snd (update_display false s)) = None
  /\ exists events : list event,
      trace (snd (update_display false s)) = trace s ++ events
      /\ Forall (fun e => is_draw e = false /\ is_erase e = false) events.
Proof.
  intros Hq Hshow Hbusy H.
  rewrite (update_display_free false s tz Hq H).
  rewrite (arbitrate_busy (refreshed tz s) Hshow Hbusy).
  split; [reflexivity |]. split; [reflexivity |].
  exists (clock_writes tz (clock s)). split; [reflexivity |].
  unfold clock_writes. repeat constructor.
Qed.

(** C8 (amended). Take two consecutive ticks outside of a query, with
    the idle display enabled, the display free, clock strings that can be
    computed and the same idle text computed by both.  The second tick
    draws nothing, so at most one draw call occurs: exactly one when the
    text is not empty and differs from [displayed_time] before the first
    tick, none when [displayed_time] already holds the text. *)
Theorem idle_text_drawn_once (s : skill) (tz : tzinfo) (text : string) :
  answering_query s = false ->
  show_time s = true ->
  active s = EmptyString ->
  resolves_to s tz ->
  idle_text tz (S (S (clock s))) = text ->
  idle_text tz (S (S (clock (snd (update_display false s))))) = text ->
  exists first second : list event,
    trace (snd (update_display false s)) = trace s ++ first
    /\ trace (snd (update_display false (snd (update_display false s))))
       = trace s ++ first ++ second
    /\ draw_calls second = 0%nat
    /\ mark1_calls second = 0%nat
    /\ (draw_calls (first ++ second) <= 1)%nat
    /\ (displayed_time s = Some text -> draw_calls (first ++ second) = 0%nat)
    /\ (displayed_time s <> Some text -> Py.truthy text = true ->
        draw_calls (first ++ second) = 1%nat).
Proof.
  intros Hq Hshow Hfree H Hfirst Hsecond.
  rewrite (update_display_free false s tz Hq H) in *.
  pose proof (resolves_to_refreshed s tz H) as Hr.
  destruct (decide (displayed_time s = Some text)) as [Hsame | Hnew].
  - (* the text is already shown *)
    rewrite (arbitrate_same (refreshed tz s) tz Hshow Hfree Hr) in *
      by (cbn [refreshed displayed_time clock]; congruence).
    cbn [snd] in *.
    cbn [clock refreshed set_clock add_trace set_active displayed
         set_displayed_time] in Hsecond.
    set (s1 := set_clock _ _) in *.
    assert (H1 : resolves_to s1 tz)
      by (eapply resolves_to_same_tz; [| exact H]; reflexivity).
    rewrite (update_display_free false s1 tz Hq H1).
    rewrite (arbitrate_same (refreshed tz s1) tz Hshow Hfree
               (resolves_to_refreshed s1 tz H1))
      by (cbn [refreshed displayed_time clock]; subst s1; norm_state;
          congruence).
    exists (clock_writes tz (clock s)), (clock_writes tz (clock s1)).
    split; [reflexivity |].
    split; [subst s1; cbn [snd]; norm_state; reflexivity |].
    split; [reflexivity |]. split; [reflexivity |].
    split; [unfold draw_calls, clock_writes; simpl; lia |].
    split; [reflexivity | contradiction].
  - destruct (Py.truthy text) eqn:Htext.
    + (* a new text is drawn by the first tick only *)
      rewrite (arbitrate_draw (refreshed tz s) tz Hshow Hfree Hr) in *
        by (cbn [refreshed displayed_time clock]; congruence).
      cbn [snd] in *.
      cbn [clock refreshed set_clock add_trace set_active displayed
           set_displayed_time] in Hsecond.
    cbn [clock refreshed set_clock add_trace set_active displayed
         set_displayed_time] in Hsecond.
      set (s1 := add_trace _ _) in *.
      assert (H1 : resolves_to s1 tz)
        by (eapply resolves_to_same_tz; [| exact H]; reflexivity).
      rewrite (update_display_free false s1 tz Hq H1).
      rewrite (arbitrate_same (refreshed tz s1) tz Hshow eq_refl
                 (resolves_to_refreshed s1 tz H1))
        by (cbn [refreshed displayed_time clock]; subst s1; norm_state;
            cbn [refreshed clock] in *; congruence).
      exists (clock_writes tz (clock s)
              ++ drawing (idle_text tz (S (S (clock s))))
                   (idle_date tz (S (S (S (clock s)))))
              ++ [ERemoveActive]),
             (clock_writes tz (clock s1)).
      split; [subst s1; norm_state; reflexivity |].
      split; [subst s1; cbn [snd]; norm_state; reflexivity |].
      split; [reflexivity |]. split; [reflexivity |].
      split; [unfold draw_calls, drawing, clock_writes;
              destruct (decide (platform = Some "mycroft_mark_1"));
              simpl; lia |].
      split; [contradiction |]. intros _ _.
      unfold draw_calls, drawing, clock_writes.
      destruct (decide (platform = Some "mycroft_mark_1")); reflexivity.
    + (* an empty text is cached by the first tick, never drawn *)
      rewrite (arbitrate_blank (refreshed tz s) tz Hshow Hfree Hr) in *
        by (cbn [refreshed displayed_time clock]; congruence).
      cbn [snd] in *.
      cbn [clock refreshed set_clock add_trace set_active displayed
           set_displayed_time] in Hsecond.
    cbn [clock refreshed set_clock add_trace set_active displayed
         set_displayed_time] in Hsecond.
      set (s1 := add_trace _ _) in *.
      assert (H1 : resolves_to s1 tz)
        by (eapply resolves_to_same_tz; [| exact H]; reflexivity).
      rewrite (update_display_free false s1 tz Hq H1).
      rewrite (arbitrate_same (refreshed tz s1) tz Hshow eq_refl
                 (resolves_to_refreshed s1 tz H1))
        by (cbn [refreshed displayed_time clock]; subst s1; norm_state;
            cbn [refreshed clock] in *; congruence).
      exists (clock_writes tz (clock s) ++ [ERemoveActive]),
             (clock_writes tz (clock s1)).
      split; [subst s1; norm_state; reflexivity |].
      split; [subst s1; cbn [snd]; norm_state; reflexivity |].
      split; [reflexivity |]. split; [reflexivity |].
      split; [unfold draw_calls, clock_writes; simpl; lia |].
      split; [contradiction | discriminate].
Qed.

(** *** The trace only grows *)

Lemma appends_bind {A B : Type} (m : M A) (f : A -> M B) :
  appends m -> (forall a, appends (f a)) -> appends (m ≫= f).
Proof.
  intros Hm Hf s. unfold mbind, M_bind.
  destruct (Hm s) as [l1 H1].
  destruct (m s) as [[a | e] s'] eqn:E; cbn [snd] in H1.
  - destruct (Hf a s') as [l2 H2]. exists (l1 ++ l2).
    rewrite H2, H1, app_assoc. reflexivity.
  - exists l1. exact H1.
Qed.

Lemma appends_same {A : Type} (m : M A) :
  (forall s, trace (snd (m s)) = trace s) -> appends m.
Proof. intros H s. exists []. rewrite H, app_nil_r. reflexivity. Qed.

Lemma appends_emit (e : event) : appends (emit e).
Proof. intros s. exists [e]. reflexivity. Qed.

Lemma appends_call {A : Type} (r : result A * list event) : appends (call r).
Proof. intros s. exists (snd r). reflexivity. Qed.

Lemma appends_pass : appends pass.
Proof. apply appends_same. reflexivity. Qed.

Lemma appends_ret {A : Type} (a : A) : appends (mret a : M A).
Proof. apply appends_same. reflexivity. Qed.

Lemma appends_gets {A : Type} (f : skill -> A) : appends (gets f).
Proof. apply appends_same. reflexivity. Qed.

Lemma appends_gui_set (key : string) (v : pyvalue) : appends (gui_set key v).
Proof. intros s. exists [EGuiSet key v]. reflexivity. Qed.

Lemma appends_get_local_datetime (location : option string)
  (dtUTC : option datetime) : appends (get_local_datetime location dtUTC).
Proof.
  unfold get_local_datetime.
  apply appends_bind;
    [destruct dtUTC; [apply appends_ret | apply appends_same; reflexivity] |].
  intros dt. apply appends_bind; [apply appends_gets |].
  intros [own |].
  - apply appends_bind; [apply appends_ret |]. intros tz.
    apply appends_bind.
    + destruct location as [l |]; [destruct (Py.truthy l) |];
        first [apply appends_call | apply appends_ret].
    + intros [z |]; [apply appends_ret |].
      apply appends_bind; [apply appends_emit | intros; apply appends_ret].
  - apply appends_bind; [apply appends_call |]. intros tz.
    apply appends_bind.
    + destruct location as [l |]; [destruct (Py.truthy l) |];
        first [apply appends_call | apply appends_ret].
    + intros [z |]; [apply appends_ret |].
      apply appends_bind; [apply appends_emit | intros; apply appends_ret].
Qed.

Lemma appends_get_display_date (day : option datetime)
  (location : option string) : appends (get_display_date day location).
Proof.
  unfold get_display_date. apply appends_bind.
  - destruct day; [apply appends_ret | apply appends_get_local_datetime].
  - intros [d |]; [| apply appends_same; reflexivity].
    destruct (decide (date_format = Some "MDY")); apply appends_ret.
Qed.

Lemma appends_get_display_current_time (location : option string)
  (dtUTC : option datetime) :
  appends (get_display_current_time location dtUTC).
Proof.
  unfold get_display_current_time.
  apply appends_bind; [apply appends_get_local_datetime |].
  intros [d |]; apply appends_ret.
Qed.

Lemma appends_remove_active : appends remove_active.
Proof. intros s. exists [ERemoveActive]. reflexivity. Qed.

Lemma appends_display (display_time : option string) :
  appends (display display_time).
Proof.
  unfold display. destruct display_time as [t |]; [| apply appends_pass].
  destruct (Py.truthy t); [| apply appends_pass].
  apply appends_bind.
  - destruct (decide (platform = Some "mycroft_mark_1"));
      [apply appends_emit | apply appends_pass].
  - intros _. unfold display_gui.
    apply appends_bind; [intros s; exists [EGuiClear]; reflexivity |].
    intros _. apply appends_bind; [apply appends_gui_set |].
    intros _. apply appends_bind; [apply appends_gui_set |].
    intros _. apply appends_bind; [apply appends_get_display_date |].
    intros d. apply appends_bind; [apply appends_gui_set |].
    intros _. apply appends_emit.
Qed.

Lemma appends_arbitrate (force : bool) : appends (arbitrate force).
Proof.
  unfold arbitrate. apply appends_bind; [apply appends_gets |].
  intros [|].
  - apply appends_bind;
      [destruct force; [apply appends_ret | apply appends_gets] |].
    intros [|]; [| apply appends_same; reflexivity].
    apply appends_bind; [apply appends_get_display_current_time |].
    intros current_time. apply appends_bind; [apply appends_gets |].
    intros shown.
    destruct (decide (shown = current_time)); [apply appends_pass |].
    apply appends_bind; [apply appends_same; reflexivity |].
    intros _. apply appends_bind; [apply appends_display |].
    intros _. apply appends_remove_active.
  - apply appends_bind; [apply appends_gets |].
    intros shown. destruct (shown_truthy shown); [| apply appends_pass].
    apply appends_bind; [apply appends_gets |].
    intros idle. apply appends_bind.
    + destruct idle; [| apply appends_pass].
      apply appends_bind; [apply appends_emit |].
      intros _. apply appends_remove_active.
    + intros _. apply appends_same. reflexivity.
Qed.

(** C10 (amended). A tick taken while [answering_query] is true leaves
    the state, its gui included, as it is.  On a tick taken while it is
    false and for which the local date and time can be computed, the
    first calls made are the writes of the time string, of the date
    string and of an empty am/pm string into the gui; lines 272-291 then
    run on that refreshed gui, whatever the idle setting, the owner of
    the display and the [force] flag are. *)
Theorem tick_refreshes_gui_first (force : bool) (s : skill) :
  (answering_query s = true -> update_display force s = (Ok tt, s))
  /\ (answering_query s = false ->
      forall tz : tzinfo, resolves_to s tz ->
        update_display force s = arbitrate force (refreshed tz s)
        /\ gui (refreshed tz s) !! "time_string"
             = Some (PyStr (idle_text tz (clock s)))
        /\ gui (refreshed tz s) !! "date_string"
             = Some (PyStr (idle_date tz (S (clock s))))
        /\ gui (refreshed tz s) !! "ampm_string" = Some (PyStr EmptyString)
        /\ exists rest : list event,
             trace (snd (update_display force s))
             = trace s ++ clock_writes tz (clock s) ++ rest).
Proof.
  split; [apply update_display_held |].
  intros Hq tz H. rewrite (update_display_free force s tz Hq H).
  split; [reflexivity |].
  split; [cbn [refreshed gui]; rewrite !lookup_insert_ne by discriminate;
          apply lookup_insert_eq |].
  split; [cbn [refreshed gui]; rewrite lookup_insert_ne by discriminate;
          apply lookup_insert_eq |].
  split; [cbn [refreshed gui]; apply lookup_insert_eq |].
  destruct (appends_arbitrate force (refreshed tz s)) as [rest Hrest].
  exists rest. rewrite Hrest. cbn [refreshed trace].
  rewrite app_assoc. reflexivity.
Qed.

(** *** The handler takes the display *)

Lemma keeps_hold_bind {A B : Type} (m : M A) (f : A -> M B) :
  keeps_hold m -> (forall a, keeps_hold (f a)) -> keeps_hold (m ≫= f).
Proof.
  intros Hm Hf s. unfold mbind, M_bind. specialize (Hm s).
  destruct (m s) as [[a | e] s']; cbn [snd] in Hm.
  - rewrite Hf. exact Hm.
  - exact Hm.
Qed.

Lemma keeps_hold_get_local_datetime (location : option string)
  (dtUTC : option datetime) : keeps_hold (get_local_datetime location dtUTC).
Proof.
  unfold get_local_datetime.
  apply keeps_hold_bind; [destruct dtUTC; intros s; reflexivity |].
  intros dt. apply keeps_hold_bind; [intros s; reflexivity |].
  intros own. apply keeps_hold_bind; [destruct own; intros s; reflexivity |].
  intros tz. apply keeps_hold_bind.
  - destruct location as [l |]; [destruct (Py.truthy l) |];
      intros s; reflexivity.
  - intros [z |]; intros s; reflexivity.
Qed.

Lemma keeps_hold_get_display_date (day : option datetime)
  (location : option string) : keeps_hold (get_display_date day location).
Proof.
  unfold get_display_date. apply keeps_hold_bind.
  - destruct day; [intros s; reflexivity | apply keeps_hold_get_local_datetime].
  - intros [d |]; [| intros s; reflexivity].
    destruct (decide (date_format = Some "MDY")); intros s; reflexivity.
Qed.

Lemma keeps_hold_display (display_time : option string) :
  keeps_hold (display display_time).
Proof.
  unfold display. destruct display_time as [t |]; [| intros s; reflexivity].
  destruct (Py.truthy t); [| intros s; reflexivity].
  apply keeps_hold_bind.
  - destruct (decide (platform = Some "mycroft_mark_1")); intros s; reflexivity.
  - intros _. unfold display_gui.
    apply keeps_hold_bind; [intros s; reflexivity |].
    intros _. apply keeps_hold_bind; [intros s; reflexivity |].
    intros _. apply keeps_hold_bind; [intros s; reflexivity |].
    intros _. apply keeps_hold_bind; [apply keeps_hold_get_display_date |].
    intros d. apply keeps_hold_bind; intros; intros s; reflexivity.
Qed.

(** Lines 331-333 leave [answering_query] true, whatever the answer drawn:
    the ticks are suspended from then on. *)
Lemma handle_query_time_begin_holds (location : option string) (s : skill) :
  answering_query (snd (handle_query_time_begin location s)) = true.
Proof.
  unfold handle_query_time_begin.
  rewrite (bind_ok _ _ _ _ _ (modify_ok _ _)).
  rewrite (bind_ok _ _ _ _ _ (emit_ok _ _)).
  assert (Hkeep : keeps_hold
            (get_display_current_time location None ≫= display)).
  { apply keeps_hold_bind; [| apply keeps_hold_display].
    unfold get_display_current_time.
    apply keeps_hold_bind; [apply keeps_hold_get_local_datetime |].
    intros [d |]; intros s0; reflexivity. }
  rewrite Hkeep. reflexivity.
Qed.

End TickFacts.

(* ===================================================================== *)
(** ** The display in the household *)
(* ===================================================================== *)

Section SchedulerScenarios.
Import Scenario.

Lemma exclusive_hold_suspends_ticks_witness :
  let C := home_world in
  answering_query held = true
  /\ ticks [false; false; true] held = held
  /\ exists drawn : list event,
      trace (snd (update_display false
                    (snd (handle_query_time_end
                            (ticks [false; false; true] held)))))
      = trace (snd (handle_query_time_end (ticks [false; false; true] held)))
        ++ drawn
      /\ draw_calls drawn = 1%nat.
Proof.
  intros C.
  pose proof (exclusive_hold_suspends_ticks (C := C) [false; false; true]
                held eq_refl) as [Hsame [_ Hdraw]].
  split; [reflexivity |]. split; [exact Hsame |].
  exact (Hdraw "America/Denver" eq_refl eq_refl eq_refl eq_refl).
Defined.

Lemma idle_text_drawn_once_witness :
  let C := home_world in
  answering_query enabled = false
  /\ show_time enabled = true
  /\ active enabled = EmptyString
  /\ resolves_to enabled "America/Denver"
  /\ idle_text "America/Denver" 2 = "12:30"
  /\ idle_text "America/Denver"
       (S (S (clock (snd (update_display false enabled))))) = "12:30"
  /\ displayed_time enabled <> Some "12:30"
  /\ exists first second : list event,
      trace (snd (update_display false enabled)) = trace enabled ++ first
      /\ trace (snd (update_display false (snd (update_display false enabled))))
         = trace enabled ++ first ++ second
      /\ draw_calls second = 0%nat
      /\ draw_calls (first ++ second) = 1%nat.
Proof.
  intros C.
  assert (Hsecond : idle_text "America/Denver"
            (S (S (clock (snd (update_display false enabled))))) = "12:30")
    by (vm_compute; reflexivity).
  assert (Hnew : displayed_time enabled <> Some "12:30") by discriminate.
  destruct (idle_text_drawn_once (C := C) enabled "America/Denver" "12:30"
              eq_refl eq_refl eq_refl eq_refl eq_refl Hsecond)
    as (first & second & H1 & H2 & H3 & _ & _ & _ & H6).
  split; [reflexivity |]. split; [reflexivity |]. split; [reflexivity |].
  split; [reflexivity |]. split; [reflexivity |]. split; [exact Hsecond |].
  split; [exact Hnew |].
  exists first, second.
  split; [exact H1 |]. split; [exact H2 |]. split; [exact H3 |].
  exact (H6 Hnew eq_refl).
Defined.

(** C8, as stated, fails on the second and third ticks of a minute: the
    first tick has drawn 12:30, the next two compute the same 12:30 with
    the idle display enabled and the display free, and the only calls
    they make are the writes of the clock strings: no draw call, not one. *)
Lemma later_ticks_counterexample :
  let C := home_world in
  let shown := snd (update_display false enabled) in
  let second := snd (update_display false shown) in
  let third := snd (update_display false second) in
  (answering_query shown = false /\ show_time shown = true)
  /\ (active shown = EmptyString /\ active second = EmptyString)
  /\ idle_text "America/Denver" (S (S (clock shown))) = "12:30"
  /\ idle_text "America/Denver" (S (S (clock second))) = "12:30"
  /\ trace third
     = trace shown
       ++ [EGuiSet "time_string" (PyStr "12:30");
           EGuiSet "date_string" (PyStr "11/3/2026");
           EGuiSet "ampm_string" (PyStr EmptyString);
           EGuiSet "time_string" (PyStr "12:30");
           EGuiSet "date_string" (PyStr "11/3/2026");
           EGuiSet "ampm_string" (PyStr EmptyString)]
  /\ draw_calls (trace third) = draw_calls (trace shown).
Proof.
  intros C shown second third.
  repeat split; vm_compute; reflexivity.
Qed.

Lemma busy_display_defers_witness :
  let C := home_world in
  answering_query busy = false
  /\ show_time busy = true
  /\ active busy <> EmptyString
  /\ resolves_to busy "America/Denver"
  /\ fst (update_display false busy) = Ok tt
  /\ displayed_time (snd (update_display false busy)) = None
  /\ exists events : list event,
      trace (snd (update_display false busy)) = trace busy ++ events
      /\ Forall (fun e => is_draw e = false /\ is_erase e = false) events.
Proof.
  intros C.
  assert (Hbusy : active busy <> EmptyString) by discriminate.
  split; [reflexivity |]. split; [reflexivity |]. split; [exact Hbusy |].
  split; [reflexivity |].
  exact (busy_display_defers (C := C) busy "America/Denver"
           eq_refl eq_refl Hbusy eq_refl).
Defined.

(** C9, as stated, fails on a tick taken while a query is answered: the
    idle display is enabled, the tick is not forced, the registry names
    another skill, yet [displayed_time] keeps its 12:30. *)
Lemma held_tick_counterexample :
  let C := home_world in
  show_time held_busy = true
  /\ active held_busy = "WeatherSkill"
  /\ update_display false held_busy = (Ok tt, held_busy)
  /\ displayed_time (snd (update_display false held_busy)) = Some "12:30"
  /\ displayed_time (snd (update_display false held_busy)) <> None.
Proof.
  intros C. split; [reflexivity |]. split; [reflexivity |].
  split; [reflexivity |]. split; [reflexivity |]. discriminate.
Qed.

Lemma tick_refreshes_gui_first_witness :
  let C := home_world in
  answering_query enabled = false
  /\ resolves_to enabled "America/Denver"
  /\ gui (refreshed "America/Denver" enabled) !! "time_string"
     = Some (PyStr "12:30")
  /\ exists rest : list event,
      trace (snd (update_display false enabled))
      = trace enabled ++ clock_writes "America/Denver" 0 ++ rest.
Proof.
  intros C.
  destruct (proj2 (tick_refreshes_gui_first (C := C) false enabled) eq_refl
              "America/Denver" eq_refl) as (_ & Htime & _ & _ & Hrest).
  split; [reflexivity |]. split; [reflexivity |].
  split; [exact Htime | exact Hrest].
Defined.

(** C10, as stated, fails on a tick of a household whose timezone is not
    found: [None] is written as the time string, then the date raises,
    and neither the date nor the am/pm string is written. *)
Lemma unresolved_timezone_counterexample :
  let C := lost_world in
  answering_query fresh = false
  /\ get_timezone location_timezone = (Ok None, [])
  /\ fst (update_display false fresh) = Raise AttributeError
  /\ trace (snd (update_display false fresh))
     = [ESpeakDialog "time.tz.not.found" None;
        EGuiSet "time_string" PyNone;
        ESpeakDialog "time.tz.not.found" None]
  /\ gui (snd (update_display false fresh)) !! "time_string" = Some PyNone
  /\ gui (snd (update_display false fresh)) !! "date_string" = None
  /\ gui (snd (update_display false fresh)) !! "ampm_string" = None.
Proof.
  intros C. repeat split; vm_compute; reflexivity.
Qed.

End SchedulerScenarios.

(* ===================================================================== *)
(** ** More on the resolution *)
(* ===================================================================== *)

Section ResolutionCoverage.
Context `{C : Collaborators}.

Lemma scan_snoc (catalog : list string) (name locale : string) :
  scan (catalog ++ [name]) locale
  = scan_step (Py.lower locale) (scan catalog locale) name.
Proof. unfold scan. rewrite fold_left_app. reflexivity. Qed.

Lemma scan_in_catalog (catalog : list string) (locale name : string) (pct : Q) :
  scan catalog locale = Some (pct, name) -> In name catalog.
Proof.
  revert pct name.
  induction catalog as [| last catalog IH] using rev_ind; [discriminate |].
  intros pct name. rewrite scan_snoc. unfold scan_step.
  destruct (scan catalog locale) as [[best found] |].
  - destruct (Qle_bool best (name_score last (Py.lower locale))).
    + intros [= _ <-]. apply in_or_app. right. left. reflexivity.
    + intros Hsame. apply in_or_app. left. eapply IH. exact Hsame.
  - intros [= _ <-]. apply in_or_app. right. left. reflexivity.
Qed.

(** The scan finds nothing only in an empty catalog; otherwise its result
    is an entry of the catalog with its own score, and no entry of the
    catalog scores higher. *)
Theorem scan_best_is_maximum (catalog : list string) (locale : string) :
  match scan catalog locale with
  | None => catalog = []
  | Some (pct, name) =>
      In name catalog
      /\ pct = name_score name (Py.lower locale)
      /\ Forall (fun n => (name_score n (Py.lower locale) <= pct)%Q) catalog
  end.
Proof.
  induction catalog as [| name catalog IH] using rev_ind; [reflexivity |].
  rewrite scan_snoc. unfold scan_step.
  destruct (scan catalog locale) as [[pct best] |].
  - destruct IH as (Hin & Hpct & Hmax).
    destruct (Qle_bool pct (name_score name (Py.lower locale))) eqn:Hle.
    + apply Qle_bool_iff in Hle.
      split; [apply in_or_app; right; left; reflexivity |].
      split; [reflexivity |].
      apply Forall_app. split.
      * eapply Forall_impl; [exact Hmax |].
        intros n Hn. eapply Qle_trans; [exact Hn | exact Hle].
      * constructor; [apply Qle_refl | constructor].
    + split; [apply in_or_app; left; exact Hin |].
      split; [exact Hpct |].
      apply Forall_app. split; [exact Hmax |].
      constructor; [| constructor].
      apply Qlt_le_weak, Qnot_le_lt. intros Habs.
      apply Qle_bool_iff in Habs. congruence.
  - subst catalog.
    split; [left; reflexivity |]. split; [reflexivity |].
    constructor; [apply Qle_refl | constructor].
Qed.


(** Whatever the alias table, the catalog and the query, [get_timezone]
    asks the user at most one question, and that question is the
    did-you-mean prompt for an entry of the catalog. *)
Theorem get_timezone_asks_at_most_once (table : list (string * pyvalue))
  (catalog : list string) (locale : string) :
  snd (get_timezone_in table catalog locale) = []
  \/ exists name : string,
      In name catalog
      /\ snd (get_timezone_in table catalog locale)
         = [EAskYesNo "did.you.mean.timezone" (say name)].
Proof.
  unfold get_timezone_in.
  destruct (exact_lookup table locale); [left; reflexivity |].
  destruct (scan catalog locale) as [[pct name] |] eqn:Hscan;
    [| left; reflexivity].
  unfold decide_best.
  destruct (Py.Qltb (8 # 10) pct); [left; reflexivity |].
  destruct (Py.Qltb (3 # 10) pct); [| left; reflexivity].
  right. exists name. split; [eapply scan_in_catalog; exact Hscan |].
  destruct (ask_yesno "did.you.mean.timezone" (say name)) as [answer |];
    [| reflexivity].
  repeat match goal with
         | |- context [match ?x with _ => _ end] =>
             is_var x; destruct x; try reflexivity
         end.
Qed.

End ResolutionCoverage.

Section ResolutionOutcomes.
Context `{C : Collaborators}.

Lemma decide_best_returns (pct : Q) (name : string) (tz : tzinfo) :
  fst (decide_best (Some (pct, name))) = Ok (Some tz) ->
  pytz_timezone name = Some tz.
Proof.
  unfold decide_best, return_timezone.
  destruct (pytz_timezone name) as [tz0 |].
  - intros Hres. f_equal.
    destruct (Py.Qltb (8 # 10) pct); [injection Hres; auto |].
    destruct (Py.Qltb (3 # 10) pct); [| discriminate].
    destruct (ask_yesno "did.you.mean.timezone" (say name)) as [answer |];
      [| discriminate].
    repeat match type of Hres with
           | context [match ?x with _ => _ end] =>
               is_var x; destruct x; try discriminate
           end.
    injection Hres; auto.
  - intros Hres. exfalso.
    destruct (Py.Qltb (8 # 10) pct); [discriminate |].
    destruct (Py.Qltb (3 # 10) pct); [| discriminate].
    destruct (ask_yesno "did.you.mean.timezone" (say name)) as [answer |];
      [| discriminate].
    repeat match type of Hres with
           | context [match ?x with _ => _ end] =>
               is_var x; destruct x; try discriminate
           end.
Qed.

Lemma return_alias_returns (v : pyvalue) (tz : tzinfo) :
  return_alias v = Ok (Some tz) ->
  exists value : string, v = PyStr value /\ pytz_timezone (Py.strip value) = Some tz.
Proof.
  unfold return_alias, return_timezone.
  destruct v as [value | | z]; try discriminate.
  destruct (pytz_timezone (Py.strip value)) as [tz0 |] eqn:Hvalue;
    [| discriminate].
  intros [= <-]. exists value. split; [reflexivity | exact Hvalue].
Qed.

Lemma after_exact_lookups (table : list (string * pyvalue))
  (catalog : list string) (locale : string) (tz : tzinfo) :
  pytz_timezone locale = None ->
  fst (match alias_lookup table locale with
       | Some (_, v) => (return_alias v, [])
       | None => decide_best (scan catalog locale)
       end) = Ok (Some tz) ->
  exists zone : string,
    pytz_timezone zone = Some tz
    /\ ((exists key value : string,
            In (key, PyStr value) table
            /\ Py.lower locale = Py.lower key
            /\ zone = Py.strip value)
        \/ In zone catalog).
Proof.
  intros _.
  destruct (alias_lookup table locale) as [[key v] |] eqn:Halias.
  - cbn [fst]. intros Hres.
    destruct (return_alias_returns v tz Hres) as (value & -> & Hvalue).
    exists (Py.strip value). split; [exact Hvalue |]. left.
    exists key, value. apply find_some in Halias as [Hin Hkey].
    apply String.eqb_eq in Hkey.
    split; [exact Hin |]. split; [exact Hkey | reflexivity].
  - destruct (scan catalog locale) as [[pct name] |] eqn:Hscan;
      [| discriminate].
    intros Hres. exists name.
    split; [exact (decide_best_returns pct name tz Hres) |].
    right. exact (scan_in_catalog _ _ _ _ Hscan).
Qed.

(** A timezone returned by [get_timezone] always comes out of
    [pytz.timezone], called on the zone of the known place, on the query
    itself, on the trimmed value of an alias whose key is the query up to
    case, or on an entry of the catalog. *)
Theorem get_timezone_result_from_pytz (table : list (string * pyvalue))
  (catalog : list string) (locale : string) (tz : tzinfo) :
  fst (get_timezone_in table catalog locale) = Ok (Some tz) ->
  exists zone : string,
    pytz_timezone zone = Some tz
    /\ (astral_timezone locale = Some zone
        \/ zone = locale
        \/ (exists key value : string,
               In (key, PyStr value) table
               /\ Py.lower locale = Py.lower key
               /\ zone = Py.strip value)
        \/ In zone catalog).
Proof.
  unfold get_timezone_in, exact_lookup.
  assert (Hrest : pytz_timezone locale = None ->
    fst (match
           match alias_lookup table locale with
           | Some (_, v) => Some (return_alias v)
           | None => None
           end
         with
         | Some r => (r, [])
         | None => decide_best (scan catalog locale)
         end) = Ok (Some tz) ->
    exists zone : string,
      pytz_timezone zone = Some tz
      /\ (astral_timezone locale = Some zone
          \/ zone = locale
          \/ (exists key value : string,
                 In (key, PyStr value) table
                 /\ Py.lower locale = Py.lower key
                 /\ zone = Py.strip value)
          \/ In zone catalog)).
  { intros Hlocale Hres.
    destruct (after_exact_lookups table catalog locale tz Hlocale)
      as (zone & Hzone & Hwhere).
    - destruct (alias_lookup table locale) as [[key v] |]; exact Hres.
    - exists zone. split; [exact Hzone |].
      destruct Hwhere as [Halias | Hin]; [right; right; left | right; right; right];
        assumption. }
  destruct (astral_timezone locale) as [place |] eqn:Hplace;
    cbn [mbind option_bind].
  - destruct (pytz_timezone place) as [tz0 |] eqn:Hzone.
    + intros [= <-]. exists place. split; [exact Hzone | left; reflexivity].
    + destruct (pytz_timezone locale) as [tz1 |] eqn:Hlocale.
      * intros [= <-]. exists locale.
        split; [exact Hlocale | right; left; reflexivity].
      * apply Hrest. reflexivity.
  - destruct (pytz_timezone locale) as [tz1 |] eqn:Hlocale.
    + intros [= <-]. exists locale.
      split; [exact Hlocale | right; left; reflexivity].
    + apply Hrest. reflexivity.
Qed.

(** Past the two case-sensitive lookups, the resolution does not see the
    case of the query: two queries equal up to case, neither of which is a
    known place or a zone of pytz, get the same outcome and the same
    question. *)
Theorem get_timezone_ignores_case (table : list (string * pyvalue))
  (catalog : list string) (a b : string) :
  Py.lower a = Py.lower b ->
  astral_timezone a ≫= pytz_timezone = None -> pytz_timezone a = None ->
  astral_timezone b ≫= pytz_timezone = None -> pytz_timezone b = None ->
  get_timezone_in table catalog a = get_timezone_in table catalog b.
Proof.
  intros Hcase Ha1 Ha2 Hb1 Hb2.
  unfold get_timezone_in, exact_lookup, alias_lookup, scan.
  rewrite Ha1, Ha2, Hb1, Hb2, Hcase. reflexivity.
Qed.

(** An alias whose key is the query up to case ends the resolution, also
    when it cannot be used: a value that is not a string raises
    [AttributeError], a string that pytz does not know once trimmed raises
    [UnknownTimeZoneError]; the catalog is not consulted and nothing is
    asked.  The case folding and the trimming are those of the
    interpreter, whatever they do to the text. *)
Theorem alias_hit_is_final (lower strip : string -> string)
  (table : list (string * pyvalue)) (catalog : list string)
  (locale key : string) (v : pyvalue) :
  astral_timezone locale ≫= pytz_timezone = None ->
  pytz_timezone locale = None ->
  alias_lookup_by lower table locale = Some (key, v) ->
  snd (get_timezone_by lower strip table catalog locale) = []
  /\ ((forall value, v <> PyStr value) ->
      fst (get_timezone_by lower strip table catalog locale)
      = Raise AttributeError)
  /\ (forall value, v = PyStr value -> pytz_timezone (strip value) = None ->
      fst (get_timezone_by lower strip table catalog locale)
      = Raise UnknownTimeZoneError)
  /\ (forall value tz, v = PyStr value ->
      pytz_timezone (strip value) = Some tz ->
      fst (get_timezone_by lower strip table catalog locale) = Ok (Some tz)).
Proof.
  intros Hplace Hlocale Halias.
  unfold get_timezone_by, exact_lookup_by. rewrite Hplace, Hlocale, Halias.
  cbn [fst snd]. split; [reflexivity |].
  split; [| split].
  - intros Hnot. destruct v as [value | | z]; [| reflexivity | reflexivity].
    exfalso. exact (Hnot value eq_refl).
  - intros value -> Hvalue. unfold return_alias_by, return_timezone.
    rewrite Hvalue. reflexivity.
  - intros value tz -> Hvalue. unfold return_alias_by, return_timezone.
    rewrite Hvalue. reflexivity.
Qed.

End ResolutionOutcomes.

(* ===================================================================== *)
(** ** More on the built-ins and the speakable name *)
(* ===================================================================== *)

Section TextCoverage.

Lemma join_cons2 (sep x y : string) (l : list string) :
  Py.join sep (x :: y :: l) = (x ++ sep ++ Py.join sep (y :: l))%string.
Proof. reflexivity. Qed.

(** Joining the pieces of a split with the separator gives the string
    back. *)
Lemma join_split (sep : ascii) (s : string) :
  Py.join (String sep EmptyString) (Py.split sep s) = s.
Proof.
  induction s as [| c s IH]; [reflexivity |].
  cbn [Py.split]. destruct (Ascii.eqb_spec c sep) as [-> | Hc].
  - destruct (Py.split sep s) as [| h t] eqn:Hs;
      [exfalso; exact (split_not_nil _ _ Hs) |].
    rewrite join_cons2, IH. reflexivity.
  - destruct (Py.split sep s) as [| h t] eqn:Hs;
      [exfalso; exact (split_not_nil _ _ Hs) |].
    destruct t as [| y t].
    + cbn [Py.join] in *. rewrite IH. reflexivity.
    + rewrite join_cons2 in *. rewrite <- IH. reflexivity.
Qed.

Lemma occurs_app (c : ascii) (a b : string) :
  PyText.occurs c (a ++ b) = PyText.occurs c a || PyText.occurs c b.
Proof.
  induction a as [| d a IH]; [reflexivity |].
  change (PyText.occurs c (String d a ++ b))
    with (Ascii.eqb d c || PyText.occurs c (a ++ b)).
  cbn [PyText.occurs]. rewrite IH, orb_assoc. reflexivity.
Qed.

Lemma occurs_split (c sep : ascii) (s : string) :
  PyText.occurs c s = false ->
  Forall (fun piece => PyText.occurs c piece = false) (Py.split sep s).
Proof.
  induction s as [| d s IH]; intros Hs.
  - repeat constructor.
  - cbn [PyText.occurs] in Hs. apply orb_false_iff in Hs as [Hd Hs].
    specialize (IH Hs). cbn [Py.split].
    destruct (Ascii.eqb d sep); [constructor; [reflexivity | exact IH] |].
    destruct (Py.split sep s) as [| h t].
    + repeat constructor. cbn [PyText.occurs]. rewrite Hd. reflexivity.
    + inversion IH as [| ? ? Hh Ht]; subst.
      constructor; [| exact Ht]. cbn [PyText.occurs]. rewrite Hd. exact Hh.
Qed.

Lemma split_pieces_no_sep (sep : ascii) (s : string) :
  Forall (fun piece => PyText.occurs sep piece = false) (Py.split sep s).
Proof.
  induction s as [| d s IH]; [repeat constructor |].
  cbn [Py.split]. destruct (Ascii.eqb d sep) eqn:Hd;
    [constructor; [reflexivity | exact IH] |].
  destruct (Py.split sep s) as [| h t].
  - repeat constructor. cbn [PyText.occurs]. rewrite Hd. reflexivity.
  - inversion IH as [| ? ? Hh Ht]; subst.
    constructor; [| exact Ht]. cbn [PyText.occurs]. rewrite Hd. exact Hh.
Qed.

Lemma occurs_replace (a b : ascii) (s : string) :
  a <> b -> PyText.occurs a (Py.replace a b s) = false.
Proof.
  intros Hab. induction s as [| d s IH]; [reflexivity |].
  cbn [Py.replace PyText.occurs]. rewrite IH, orb_false_r.
  destruct (Ascii.eqb_spec d a) as [-> | Hd].
  - apply Ascii.eqb_neq. congruence.
  - apply Ascii.eqb_neq. exact Hd.
Qed.

Lemma occurs_join (c : ascii) (sep : string) (l : list string) :
  PyText.occurs c sep = false ->
  Forall (fun piece => PyText.occurs c piece = false) l ->
  PyText.occurs c (Py.join sep l) = false.
Proof.
  intros Hsep. induction 1 as [| x l Hx Hl IH]; [reflexivity |].
  destruct l as [| y l]; [exact Hx |].
  rewrite join_cons2, !occurs_app, Hx, Hsep, IH. reflexivity.
Qed.

(** The phrase spoken for a zone never holds a slash or an underscore,
    whatever the identifier. *)
Theorem say_has_no_slash_nor_underscore (name : string) :
  PyText.occurs "/" (say name) = false
  /\ PyText.occurs "_" (say name) = false.
Proof.
  unfold say. split.
  - apply occurs_join; [reflexivity |].
    apply Forall_rev, split_pieces_no_sep.
  - apply occurs_join; [reflexivity |].
    apply Forall_rev, occurs_split, occurs_replace. discriminate.
Qed.

End TextCoverage.

(* ===================================================================== *)
(** ** More on the periodic callback *)
(* ===================================================================== *)

(** One statement of a method body is run, the timezone being [tz]. *)
Ltac run tz H :=
  first
    [ rewrite (bind_ok _ _ _ _ _ (gets_ok _ _))
    | rewrite (bind_ok _ _ _ _ _ (modify_ok _ _))
    | rewrite (bind_ok _ _ _ _ _ (gui_set_ok _ _ _))
    | rewrite (bind_ok _ _ _ _ _ (gui_clear_ok _))
    | rewrite (bind_ok _ _ _ _ _ (emit_ok _ _))
    | rewrite (bind_ok _ _ _ _ _ (remove_active_ok _))
    | erewrite bind_ok
        by (apply get_display_date_ok with (tz := tz);
            eapply resolves_to_same_tz; [| exact H]; reflexivity)
    | erewrite bind_ok
        by (apply get_display_current_time_ok with (tz := tz);
            eapply resolves_to_same_tz; [| exact H]; reflexivity) ].

Section TickCoverage.
Context `{C : Collaborators}.

Lemma keeps_settings_bind {A B : Type} (m : M A) (f : A -> M B) :
  keeps_settings m -> (forall a, keeps_settings (f a)) ->
  keeps_settings (m ≫= f).
Proof.
  intros Hm Hf s. unfold mbind, M_bind. specialize (Hm s).
  destruct (m s) as [[a | e] s']; cbn [snd] in Hm; [| exact Hm].
  destruct (Hf a s') as (H1 & H2 & H3). destruct Hm as (G1 & G2 & G3).
  rewrite H1, H2, H3. auto.
Qed.

Lemma keeps_settings_same {A : Type} (m : M A) :
  (forall s, answering_query (snd (m s)) = answering_query s) ->
  (forall s, show_time (snd (m s)) = show_time s) ->
  (forall s, display_tz (snd (m s)) = display_tz s) ->
  keeps_settings m.
Proof. intros H1 H2 H3 s. auto. Qed.

(** Closes a goal on a body that is one primitive step. *)
Ltac settled := apply keeps_settings_same; intros; reflexivity.

Lemma keeps_settings_get_local_datetime (location : option string)
  (dtUTC : option datetime) :
  keeps_settings (get_local_datetime location dtUTC).
Proof.
  unfold get_local_datetime.
  apply keeps_settings_bind; [destruct dtUTC; settled |].
  intros dt. apply keeps_settings_bind; [settled |].
  intros own. apply keeps_settings_bind; [destruct own; settled |].
  intros tz. apply keeps_settings_bind.
  - destruct location as [l |]; [destruct (Py.truthy l) |]; settled.
  - intros [z |]; settled.
Qed.

Lemma keeps_settings_get_display_date (day : option datetime)
  (location : option string) :
  keeps_settings (get_display_date day location).
Proof.
  unfold get_display_date. apply keeps_settings_bind.
  - destruct day; [settled | apply keeps_settings_get_local_datetime].
  - intros [d |]; [| settled].
    destruct (decide (date_format = Some "MDY")); settled.
Qed.

Lemma keeps_settings_get_display_current_time (location : option string)
  (dtUTC : option datetime) :
  keeps_settings (get_display_current_time location dtUTC).
Proof.
  unfold get_display_current_time.
  apply keeps_settings_bind; [apply keeps_settings_get_local_datetime |].
  intros [d |]; settled.
Qed.

Lemma keeps_settings_display (display_time : option string) :
  keeps_settings (display display_time).
Proof.
  unfold display. destruct display_time as [t |]; [| settled].
  destruct (Py.truthy t); [| settled].
  apply keeps_settings_bind.
  - destruct (decide (platform = Some "mycroft_mark_1")); settled.
  - intros _. unfold display_gui.
    apply keeps_settings_bind; [settled |].
    intros _. apply keeps_settings_bind; [settled |].
    intros _. apply keeps_settings_bind; [settled |].
    intros _. apply keeps_settings_bind; [apply keeps_settings_get_display_date |].
    intros d. apply keeps_settings_bind; [settled | intros; settled].
Qed.

(** A tick never changes the query flag, the idle-display setting or the
    display timezone, whatever the state and the flag, also when it
    raises. *)
Theorem update_display_keeps_settings (force : bool) (s : skill) :
  answering_query (snd (update_display force s)) = answering_query s
  /\ show_time (snd (update_display force s)) = show_time s
  /\ display_tz (snd (update_display force s)) = display_tz s.
Proof.
  revert s. change (keeps_settings (update_display force)).
  unfold update_display.
  apply keeps_settings_bind; [settled |].
  intros [|]; [settled |].
  apply keeps_settings_bind.
  - unfold refresh_gui.
    apply keeps_settings_bind; [apply keeps_settings_get_display_current_time |].
    intros t. apply keeps_settings_bind; [settled |].
    intros _. apply keeps_settings_bind; [apply keeps_settings_get_display_date |].
    intros d. apply keeps_settings_bind; [settled | intros; settled].
  - intros _. unfold arbitrate.
    apply keeps_settings_bind; [settled |].
    intros [|].
    + apply keeps_settings_bind; [destruct force; settled |].
      intros [|]; [| settled].
      apply keeps_settings_bind; [apply keeps_settings_get_display_current_time |].
      intros current_time. apply keeps_settings_bind; [settled |].
      intros shown. destruct (decide (shown = current_time)); [settled |].
      apply keeps_settings_bind; [settled |].
      intros _. apply keeps_settings_bind; [apply keeps_settings_display |].
      intros _. settled.
    + apply keeps_settings_bind; [settled |].
      intros shown. destruct (shown_truthy shown); [| settled].
      apply keeps_settings_bind; [settled |].
      intros idle. apply keeps_settings_bind; [| intros; settled].
      destruct idle; [| settled].
      apply keeps_settings_bind; [settled | intros; settled].
Qed.

(** The ticks that fire while [handle_query_time] shows its answer change
    nothing: lines 331-339 end as if none had fired, whatever the location
    asked for and whatever the ticks would find.  When these lines run to
    their end, the flag is down and the cache of the idle text dropped.
    When line 333 raises, lines 336-339 are not run: the flag stays up,
    and every later tick is held off as well. *)
Theorem query_window_shields_ticks (location : option string)
  (forces : list bool) (s : skill) :
  handle_query_time_show location forces s
  = handle_query_time_show location [] s
  /\ match fst (handle_query_time_show location forces s) with
     | Ok _ =>
         answering_query (snd (handle_query_time_show location forces s))
         = false
         /\ displayed_time (snd (handle_query_time_show location forces s))
            = None
     | Raise _ =>
         answering_query (snd (handle_query_time_show location forces s))
         = true
         /\ forall later : list bool,
              ticks later (snd (handle_query_time_show location forces s))
              = snd (handle_query_time_show location forces s)
     end.
Proof.
  pose proof (handle_query_time_begin_holds location s) as Hheld.
  unfold handle_query_time_show, mbind, M_bind.
  destruct (handle_query_time_begin location s) as [[[] | e] held];
    cbn [snd] in Hheld.
  - rewrite !modify_ok, (ticks_held forces held Hheld).
    cbn [ticks]. rewrite handle_query_time_end_ok.
    split; [reflexivity |]. cbn [fst snd]. split; reflexivity.
  - split; [reflexivity |]. cbn [fst snd].
    split; [exact Hheld |]. intros later. exact (ticks_held later held Hheld).
Qed.

End TickCoverage.

Section TickBranches.
Context `{C : Collaborators}.

Lemma bind_assoc_at {A B D : Type} (m : M A) (f : A -> M B) (g : B -> M D)
  (s : skill) :
  ((m ≫= f) ≫= g) s = (m ≫= (fun a => f a ≫= g)) s.
Proof.
  unfold mbind, M_bind. destruct (m s) as [[a | e] s1]; reflexivity.
Qed.

(** The timezone of the device being found without a question, a tick
    taken outside of a query while the idle display is not wanted never
    draws.  If a text was shown it is forgotten, and the face is
    erased and the display released only when the registry names no owner;
    if nothing was shown the tick only refreshes the clock strings. *)
Theorem disabled_tick_erases (force : bool) (s : skill) (tz : tzinfo) :
  answering_query s = false ->
  show_time s = false ->
  resolves_to s tz ->
  fst (update_display force s) = Ok tt
  /\ trace (snd (update_display force s))
     = trace s ++ clock_writes tz (clock s)
       ++ (if shown_truthy (displayed_time s) && String.eqb (active s) EmptyString
           then [EMouthReset; ERemoveActive] else [])
  /\ displayed_time (snd (update_display force s))
     = (if shown_truthy (displayed_time s) then None else displayed_time s).
Proof.
  intros Hq Hshow H.
  rewrite (update_display_free force s tz Hq H).
  unfold arbitrate, _is_display_idle, mouth_reset.
  run tz H. cbn [refreshed show_time]. rewrite Hshow.
  run tz H. cbn [refreshed displayed_time].
  destruct (shown_truthy (displayed_time s)); [| split; [| split]; reflexivity].
  run tz H. cbn [refreshed active].
  destruct (String.eqb (active s) EmptyString).
  - rewrite bind_assoc_at. repeat run tz H. rewrite modify_ok.
    split; [reflexivity |]. split; [norm_state; reflexivity | reflexivity].
  - unfold pass. rewrite (bind_ok _ _ _ _ tt) by reflexivity.
    rewrite modify_ok.
    split; [reflexivity |].
    split; [norm_state; rewrite app_nil_r; reflexivity | reflexivity].
Qed.

(** Lines 274-280 under [force]: the registry is not read. *)
Lemma arbitrate_forced (s : skill) (tz : tzinfo) :
  show_time s = true -> resolves_to s tz ->
  displayed_time s <> Some (idle_text tz (clock s)) ->
  Py.truthy (idle_text tz (clock s)) = true ->
  arbitrate true s
  = (Ok tt,
     add_trace [ERemoveActive]
       (set_active EmptyString
          (displayed tz (idle_text tz (clock s))
             (set_displayed_time (Some (idle_text tz (clock s)))
                (set_clock (S (clock s)) s))))).
Proof.
  intros Hshow H Hnew Htext. unfold arbitrate.
  run tz H. rewrite Hshow.
  rewrite (bind_ok _ _ _ _ true) by reflexivity.
  run tz H. run tz H. cbn [displayed_time set_clock].
  destruct (decide (displayed_time s = Some (idle_text tz (clock s))));
    [contradiction |].
  run tz H.
  erewrite bind_ok
    by (apply display_ok with (tz := tz);
        [exact Htext | eapply resolves_to_same_tz; [| exact H]; reflexivity]).
  rewrite remove_active_ok. reflexivity.
Qed.

(** A forced tick, the one [handle_show_time] makes, does not look at the
    display registry: outside of a query, with the idle display enabled, a
    text that is new and not empty is drawn whoever owns the display, and
    the display is released. *)
Theorem forced_tick_draws (s : skill) (tz : tzinfo) :
  answering_query s = false ->
  show_time s = true ->
  resolves_to s tz ->
  displayed_time s <> Some (idle_text tz (S (S (clock s)))) ->
  Py.truthy (idle_text tz (S (S (clock s)))) = true ->
  fst (update_display true s) = Ok tt
  /\ trace (snd (update_display true s))
     = trace s ++ clock_writes tz (clock s)
       ++ drawing (idle_text tz (S (S (clock s))))
            (idle_date tz (S (S (S (clock s)))))
       ++ [ERemoveActive]
  /\ displayed_time (snd (update_display true s))
     = Some (idle_text tz (S (S (clock s))))
  /\ active (snd (update_display true s)) = EmptyString.
Proof.
  intros Hq Hshow H Hnew Htext.
  rewrite (update_display_free true s tz Hq H).
  rewrite (arbitrate_forced (refreshed tz s) tz Hshow
             (resolves_to_refreshed s tz H) Hnew Htext).
  split; [reflexivity |].
  split; [norm_state; reflexivity |]. split; reflexivity.
Qed.

Lemma get_local_datetime_lost (s : skill) (asked : list event) :
  local_timezone s = (Ok None, asked) ->
  get_local_datetime None None s
  = (Ok None,
     add_trace [ESpeakDialog "time.tz.not.found" None]
       (add_trace asked (set_clock (S (clock s)) s))).
Proof.
  unfold local_timezone, get_local_datetime. intros H.
  unfold mbind, M_bind, read_now_utc, gets, call, mret, M_ret. simpl.
  destruct (display_tz s) as [own |]; [discriminate H |].
  rewrite H. reflexivity.
Qed.

(** When no timezone is found for the device (no display timezone is set
    and the configured one resolves to nothing), a tick taken outside of
    a query raises [AttributeError]: it has said twice that the timezone
    was not found and has written [None] as the time string of the gui;
    the text cached in [displayed_time] is left as it was. *)
Theorem unresolved_tick_raises (force : bool) (s : skill)
  (asked : list event) :
  answering_query s = false ->
  local_timezone s = (Ok None, asked) ->
  fst (update_display force s) = Raise AttributeError
  /\ trace (snd (update_display force s))
     = trace s ++ asked ++ [ESpeakDialog "time.tz.not.found" None]
       ++ [EGuiSet "time_string" PyNone]
       ++ asked ++ [ESpeakDialog "time.tz.not.found" None]
  /\ gui (snd (update_display force s)) !! "time_string" = Some PyNone
  /\ displayed_time (snd (update_display force s)) = displayed_time s.
Proof.
  intros Hq Hlost. unfold update_display.
  rewrite (bind_ok _ _ _ _ _ (gets_ok _ _)), Hq.
  unfold refresh_gui, get_display_current_time, get_display_date.
  rewrite ?bind_assoc_at.
  rewrite (bind_ok _ _ _ _ _ (get_local_datetime_lost s asked Hlost)).
  rewrite ?bind_assoc_at.
  rewrite (bind_ok _ _ _ _ (@None string)) by reflexivity.
  rewrite ?bind_assoc_at.
  rewrite (bind_ok _ _ _ _ _ (gui_set_ok _ _ _)).
  rewrite ?bind_assoc_at.
  erewrite bind_ok
    by (apply get_local_datetime_lost with (asked := asked); exact Hlost).
  cbn [of_option].
  erewrite (bind_raise _ _ _ _ AttributeError) by reflexivity.
  split; [reflexivity |].
  split; [cbn [snd raise]; norm_state; reflexivity |].
  split; [cbn [snd raise]; norm_state; apply lookup_insert_eq | reflexivity].
Qed.

(** Whatever the gui held before, a text drawn by [display] leaves it
    with exactly three keys: the time, the am/pm and the date strings. *)
Theorem display_resets_gui_keys (s : skill) (tz : tzinfo) (text : string) :
  Py.truthy text = true ->
  resolves_to s tz ->
  fst (display (Some text) s) = Ok tt
  /\ dom (gui (snd (display (Some text) s)))
     = ({["time_string"; "ampm_string"; "date_string"]} : gset string)
  /\ gui (snd (display (Some text) s)) !! "time_string" = Some (PyStr text).
Proof.
  intros Htext H. rewrite (display_ok s tz text Htext H).
  split; [reflexivity |]. cbn [snd displayed gui]. split.
  - rewrite !dom_insert_L, dom_empty_L. set_solver.
  - rewrite !lookup_insert_ne by discriminate. apply lookup_insert_eq.
Qed.

End TickBranches.

(* ===================================================================== *)
(** ** The Mark 1 face *)
(* ===================================================================== *)

Section Mark1Coverage.
Import Mark1.

Lemma glyph_width (c : ascii) (code : string) :
  glyph c = Some code ->
  well_formed code = true
  /\ img_width code = (if Ascii.eqb c ":" then 2 else 4)%Z.
Proof.
  unfold glyph.
  destruct (List.find (fun entry => Ascii.eqb c (fst entry)) code_dict)
    as [[key image] |] eqn:Hfind; [| discriminate].
  intros [= <-]. apply find_some in Hfind as [Hin Hkey].
  apply Ascii.eqb_eq in Hkey. cbn [fst] in Hkey. subst key.
  unfold code_dict in Hin. cbn [In] in Hin.
  repeat (destruct Hin as [[= <- <-] | Hin]; [split; reflexivity |]).
  contradiction.
Qed.

Lemma draw_glyphs_cons (c : ascii) (rest : string) (xoffset : Z) :
  draw_glyphs (String c rest) xoffset
  = match glyph c with
    | Some code =>
        let next := if Ascii.eqb c ":" then (xoffset + 2)%Z
                    else (xoffset + 4)%Z in
        ({| img_code := code; x := xoffset |} :: fst (draw_glyphs rest next),
         snd (draw_glyphs rest next))
    | None => draw_glyphs rest xoffset
    end.
Proof.
  cbn [draw_glyphs]. destruct (glyph c); [| reflexivity].
  destruct (draw_glyphs rest _); reflexivity.
Qed.

(** The glyphs of a time are drawn side by side: each call starts at the
    offset where the image of the call before ends, the width of an image
    being the one its code declares, from the first offset to the offset
    the loop ends on. *)
Theorem glyphs_abut (display_time : string) (xoffset : Z) :
  chain xoffset (fst (draw_glyphs display_time xoffset))
  = Some (snd (draw_glyphs display_time xoffset)).
Proof.
  revert xoffset. induction display_time as [| c rest IH]; intros xoffset;
    [reflexivity |].
  rewrite draw_glyphs_cons.
  destruct (glyph c) as [code |] eqn:Hglyph; [| apply IH].
  destruct (glyph_width c code Hglyph) as [_ Hwidth].
  cbn [fst snd chain x img_code]. rewrite Z.eqb_refl, Hwidth.
  destruct (Ascii.eqb c ":"); apply IH.
Qed.

(** Every image sent to the face, for any text and any answer of the
    alarm skill, holds as many letters as the size it declares needs. *)
Theorem mark1_images_well_formed (display_time : string)
  (response : option (option Z)) :
  Forall (fun call => well_formed (img_code call) = true)
         (display_mark1_calls display_time response).
Proof.
  unfold display_mark1_calls. apply Forall_app. split; [| apply Forall_app; split].
  - unfold blanks. destruct (String.length display_time =? 4)%nat;
      repeat constructor.
  - generalize (first_offset display_time).
    induction display_time as [| c rest IH]; intros xoffset; [constructor |].
    rewrite draw_glyphs_cons.
    destruct (glyph c) as [code |] eqn:Hglyph; [| apply IH].
    cbn [fst]. constructor; [| apply IH].
    exact (proj1 (glyph_width c code Hglyph)).
  - unfold alarm_dot. destruct (_is_alarm_set response); repeat constructor.
Qed.

Lemma digit_glyph (c : ascii) :
  is_digit c = true ->
  Ascii.eqb c ":" = false /\ exists code, glyph c = Some code.
Proof.
  destruct c as [[] [] [] [] [] [] [] []]; vm_compute; intros H;
    try discriminate H; split; try reflexivity; eexists; reflexivity.
Qed.

Lemma known_text_offset (s : string) (xoffset : Z) :
  all_known s = true ->
  snd (draw_glyphs s xoffset)
  = (xoffset + 4 * Z.of_nat (String.length s) - 2 * Z.of_nat (colons s))%Z
  /\ length (fst (draw_glyphs s xoffset)) = String.length s.
Proof.
  revert xoffset. induction s as [| c rest IH]; intros xoffset Hknown.
  - cbn. split; [lia | reflexivity].
  - cbn [all_known] in Hknown. apply andb_true_iff in Hknown as [Hc Hrest].
    rewrite draw_glyphs_cons. cbn [String.length colons].
    apply orb_true_iff in Hc as [Hdigit | Hcolon].
    + destruct (digit_glyph c Hdigit) as [Hnot [code Hcode]].
      rewrite Hcode, Hnot. cbn [fst snd length].
      destruct (IH (xoffset + 4)%Z Hrest) as [Hoff Hlen].
      rewrite Hoff, Hlen. split; [lia | reflexivity].
    + apply Ascii.eqb_eq in Hcolon. subst c.
      change (glyph ":") with (Some "CIICAA"). cbn [Ascii.eqb Bool.eqb fst snd length].
      destruct (IH (xoffset + 2)%Z Hrest) as [Hoff Hlen].
      rewrite Hoff, Hlen. split; [lia | reflexivity].
Qed.

Lemma first_offset_exact (display_time : string) :
  first_offset display_time
  = (17 - 2 * Z.of_nat (String.length display_time))%Z.
Proof.
  unfold first_offset.
  replace (32 - (4 * Z.of_nat (String.length display_time) - 2))%Z
    with ((17 - 2 * Z.of_nat (String.length display_time)) * 2)%Z by lia.
  apply Z.div_mul. discriminate.
Qed.

(** A time made of digits around one colon is centred on the 32 columns
    of the face: one glyph is drawn for each character, and as many
    columns are left free after the last glyph as before the first. *)
Theorem clock_text_is_centred (display_time : string) :
  clock_text display_time ->
  length (fst (draw_glyphs display_time (first_offset display_time)))
  = String.length display_time
  /\ (32 - snd (draw_glyphs display_time (first_offset display_time))
      = first_offset display_time)%Z.
Proof.
  intros [Hknown Hcolons].
  destruct (known_text_offset display_time (first_offset display_time) Hknown)
    as [Hoff Hlen].
  split; [exact Hlen |].
  rewrite Hoff, Hcolons, first_offset_exact. lia.
Qed.

(** For a time of four or five characters, digits around one colon, the
    two blanks drawn first frame the glyphs: the left blank is as wide as
    the margin before the first glyph, the right blank starts on the last
    column of the last glyph (its spacing column) and ends on column 31,
    and the alarm dot lies inside the right blank. *)
Theorem blanks_frame_the_glyphs (display_time : string) :
  clock_text display_time ->
  (String.length display_time = 4 \/ String.length display_time = 5)%nat ->
  exists left right : mouth_display,
    blanks display_time = [left; right]
    /\ x left = 0%Z
    /\ img_width (img_code left) = first_offset display_time
    /\ (x right + 1
        = snd (draw_glyphs display_time (first_offset display_time)))%Z
    /\ (x right + img_width (img_code right) = 31)%Z
    /\ forall alarm, (x right <= x (alarm_dot alarm)
                      /\ x (alarm_dot alarm)
                         + img_width (img_code (alarm_dot alarm)) <= 31)%Z.
Proof.
  intros [Hknown Hcolons] Hlen.
  destruct (known_text_offset display_time (first_offset display_time) Hknown)
    as [Hoff _].
  rewrite Hoff, Hcolons, first_offset_exact. unfold blanks.
  destruct Hlen as [Hlen | Hlen]; rewrite Hlen; cbn [Nat.eqb];
    eexists; eexists; (split; [reflexivity |]);
    cbn; repeat split; try lia; destruct alarm; cbn; lia.
Qed.

End Mark1Coverage.

(* ===================================================================== *)
(** ** The spoken time and the location of an utterance *)
(* ===================================================================== *)

Section SpokenCoverage.
Context `{C : Collaborators}.

Lemma replace_pair_cons2 (a b c d : ascii) (new s : string) :
  PyText.replace_pair a b new (String c (String d s))
  = if Ascii.eqb c a && Ascii.eqb d b
    then (new ++ PyText.replace_pair a b new s)%string
    else String c (PyText.replace_pair a b new (String d s)).
Proof. reflexivity. Qed.

Lemma contains_pair_cons2 (a b c d : ascii) (s : string) :
  PyText.contains_pair a b (String c (String d s))
  = (Ascii.eqb c a && Ascii.eqb d b) || PyText.contains_pair a b (String d s).
Proof. reflexivity. Qed.

(** What the workaround of line 188 does to a text of at most [n]
    characters: no AM is left, a text that starts with M started with M,
    and a text without AM is unchanged. *)
Lemma replace_AM_bounded (n : nat) (s : string) :
  (String.length s <= n)%nat ->
  PyText.contains_pair "A" "M" (PyText.replace_pair "A" "M" "A.M." s) = false
  /\ (forall r, PyText.replace_pair "A" "M" "A.M." s = String "M" r ->
                exists r', s = String "M" r')
  /\ (PyText.contains_pair "A" "M" s = false ->
      PyText.replace_pair "A" "M" "A.M." s = s).
Proof.
  revert s. induction n as [| n IH]; intros s Hlen.
  - destruct s; [| cbn in Hlen; lia].
    split; [reflexivity |]. split; [discriminate | reflexivity].
  - destruct s as [| c [| d s]].
    + split; [reflexivity |]. split; [discriminate | reflexivity].
    + split; [reflexivity |].
      split; [intros r [= -> _]; eexists; reflexivity | reflexivity].
    + rewrite replace_pair_cons2, contains_pair_cons2.
      destruct (Ascii.eqb c "A" && Ascii.eqb d "M") eqn:Hpair.
      * destruct (IH s) as (Hnone & _ & _); [cbn in Hlen; lia |].
        split; [| split; [discriminate | discriminate]].
        change ("A.M." ++ PyText.replace_pair "A" "M" "A.M." s)%string
          with (String "A" (String "." (String "M" (String "."
                  (PyText.replace_pair "A" "M" "A.M." s))))).
        rewrite !contains_pair_cons2. cbn [Ascii.eqb Bool.eqb andb orb].
        destruct (PyText.replace_pair "A" "M" "A.M." s) as [| e r] eqn:Hr;
          [reflexivity |].
        rewrite contains_pair_cons2. cbn [Ascii.eqb Bool.eqb andb orb].
        destruct r; [reflexivity | exact Hnone].
      * destruct (IH (String d s)) as (Hnone & Hhead & Hsame);
          [cbn in Hlen |- *; lia |].
        split; [| split].
        -- destruct (PyText.replace_pair "A" "M" "A.M." (String d s))
             as [| e r] eqn:Hr; [reflexivity |].
           rewrite contains_pair_cons2, Hnone, orb_false_r.
           destruct (Ascii.eqb_spec e "M") as [-> | He];
             [| rewrite andb_false_r; reflexivity].
           destruct (Hhead r eq_refl) as [r' [= ->]].
           rewrite andb_true_r in *. exact Hpair.
        -- intros r [= -> _]. eexists. reflexivity.
        -- cbn [orb]. intros Hrest. rewrite (Hsame Hrest). reflexivity.
Qed.

(** When am/pm is spoken, a location being given or [force_ampm] set, the
    text returned by [get_spoken_current_time] never holds AM: every AM
    of the text of [nice_time] is spelt A.M., and a text without AM is
    returned as it is. *)
Theorem spoken_time_spells_AM (spoken : datetime -> bool -> string)
  (location : option string) (dtUTC : option datetime) (force_ampm : bool)
  (s : skill) (text : string) :
  match location with Some l => Py.truthy l | None => false end || force_ampm
  = true ->
  fst (get_spoken_current_time spoken location dtUTC force_ampm s)
  = Ok (Some text) ->
  PyText.contains_pair "A" "M" text = false
  /\ exists dt : datetime,
      text = PyText.replace_pair "A" "M" "A.M." (spoken dt true)
      /\ (PyText.contains_pair "A" "M" (spoken dt true) = false ->
          text = spoken dt true).
Proof.
  intros Hsay. unfold get_spoken_current_time, mbind, M_bind.
  destruct (get_local_datetime location dtUTC s) as [[[dt |] | e] s'];
    [| discriminate | discriminate].
  rewrite Hsay. cbn [fst mret M_ret]. intros [= <-].
  destruct (replace_AM_bounded _ (spoken dt true) (le_n _))
    as (Hnone & _ & Hsame).
  split; [exact Hnone |]. exists dt. split; [reflexivity | exact Hsame].
Qed.

End SpokenCoverage.

Section ExtractCoverage.
Variable search : string -> string -> re_match.

(** A line of the resource that starts with a hash sign, once trimmed, is
    a comment: wherever it stands, the location found is the one found
    without it. *)
Theorem comment_lines_are_skipped (before after : list string)
  (line utt : string) :
  PyText.is_comment (Py.strip line) = true ->
  _extract_location search (Some (before ++ line :: after)) utt
  = _extract_location search (Some (before ++ after)) utt.
Proof.
  intros Hcomment. unfold _extract_location.
  induction before as [| pat before IH]; cbn [app search_lines].
  - rewrite Hcomment. reflexivity.
  - rewrite IH. reflexivity.
Qed.

(** The first pattern that matches with a group named Location decides,
    also when that group is [None]: the lines after it are not tried.
    Lines before it are comments, patterns that do not match, or
    patterns that match without such a group. *)
Theorem first_location_group_wins (before after : list string)
  (line utt : string) (location : option string) :
  Forall (fun pat => PyText.is_comment (Py.strip pat) = true
                     \/ search (Py.strip pat) utt = NoMatch
                     \/ search (Py.strip pat) utt = MatchWithoutGroup) before ->
  PyText.is_comment (Py.strip line) = false ->
  search (Py.strip line) utt = MatchGroup location ->
  _extract_location search (Some (before ++ line :: after)) utt = location.
Proof.
  intros Hbefore Hline Hmatch. unfold _extract_location.
  induction Hbefore as [| pat before Hpat _ IH]; cbn [app search_lines].
  - rewrite Hline, Hmatch. reflexivity.
  - destruct (PyText.is_comment (Py.strip pat)) eqn:Hcomment; [exact IH |].
    destruct Hpat as [Habs | [-> | ->]]; [discriminate | exact IH | exact IH].
Qed.

End ExtractCoverage.

(* ===================================================================== *)
(** ** The pages of the gui and the show-time intent *)
(* ===================================================================== *)

Section PagesCoverage.
Context `{C : Collaborators}.

Lemma strftime_of_now (fmt : string) (s : skill) (tz : tzinfo) :
  resolves_to s tz ->
  strftime_of fmt None None s
  = (Ok (strftime (astimezone (now_utc (clock s)) tz) fmt),
     set_clock (S (clock s)) s).
Proof.
  intros H. unfold strftime_of.
  rewrite (bind_ok _ _ _ _ _ (get_local_datetime_ok s tz H)). reflexivity.
Qed.

Lemma strftime_of_day (fmt : string) (d : datetime)
  (location : option string) (s : skill) :
  strftime_of fmt (Some d) location s = (Ok (strftime d fmt), s).
Proof. reflexivity. Qed.

Lemma get_display_date_day (d : datetime) (location : option string)
  (s : skill) :
  get_display_date (Some d) location s
  = (Ok (if decide (date_format = Some "MDY")
         then strftime d "%-m/%-d/%Y" else strftime d "%Y/%-d/%-m"), s).
Proof.
  unfold get_display_date.
  rewrite (bind_ok _ _ s s (Some d)) by reflexivity.
  destruct (decide (date_format = Some "MDY")); reflexivity.
Qed.

(** The timezone of the device being found without a question, the
    resting page reads the clock five times, once for each string it
    shows: the time comes from the first reading, the date from the
    second, the weekday, the month and the year from the next three.
    Whatever the gui held before, it is left with these and an empty
    am/pm string, and the idle page is shown. *)
Theorem handle_idle_reads_clock_five_times (s : skill) (tz : tzinfo) :
  resolves_to s tz ->
  let at_reading n fmt := strftime (astimezone (now_utc (clock s + n)) tz) fmt in
  fst (handle_idle s) = Ok tt
  /\ clock (snd (handle_idle s)) = clock s + 5
  /\ gui (snd (handle_idle s))
     = <["year_string" := PyStr (at_reading 4 "%Y")]>
         (<["month_string" := PyStr (at_reading 3 "%B %d")]>
            (<["weekday_string" := PyStr (at_reading 2 "%A")]>
               (<["date_string" := PyStr (idle_date tz (clock s + 1))]>
                  (<["ampm_string" := PyStr EmptyString]>
                     (<["time_string" := PyStr (idle_text tz (clock s))]> ∅)))))
  /\ trace (snd (handle_idle s))
     = trace s
       ++ [EGuiClear;
           EGuiSet "time_string" (PyStr (idle_text tz (clock s)));
           EGuiSet "ampm_string" (PyStr EmptyString);
           EGuiSet "date_string" (PyStr (idle_date tz (clock s + 1)));
           EGuiSet "weekday_string" (PyStr (at_reading 2 "%A"));
           EGuiSet "month_string" (PyStr (at_reading 3 "%B %d"));
           EGuiSet "year_string" (PyStr (at_reading 4 "%Y"));
           EGuiShowPage "idle.qml"].
Proof.
  intros H at_reading. unfold handle_idle, get_weekday, get_month_date, get_year.
  run tz H. run tz H. run tz H. run tz H. run tz H. run tz H.
  erewrite bind_ok
    by (apply strftime_of_now with (tz := tz);
        eapply resolves_to_same_tz; [| exact H]; reflexivity).
  run tz H.
  erewrite bind_ok
    by (apply strftime_of_now with (tz := tz);
        eapply resolves_to_same_tz; [| exact H]; reflexivity).
  run tz H.
  erewrite bind_ok
    by (apply strftime_of_now with (tz := tz);
        eapply resolves_to_same_tz; [| exact H]; reflexivity).
  run tz H. rewrite emit_ok.
  split; [reflexivity |].
  split; [norm_state; lia |].
  subst at_reading. cbv beta.
  replace (clock s + 4) with (S (S (S (S (clock s))))) by lia.
  replace (clock s + 3) with (S (S (S (clock s)))) by lia.
  replace (clock s + 2) with (S (S (clock s))) by lia.
  replace (clock s + 1) with (S (clock s)) by lia.
  split; norm_state; reflexivity.
Qed.

(** The date page of a day that is given is made from that day alone:
    whatever the state and the location, nothing raises, the clock is not
    read, no timezone is looked up, and the gui is left with exactly the
    date, weekday, month and year strings of that day. *)
Theorem show_date_gui_of_given_day (location : option string) (d : datetime)
  (s : skill) :
  fst (show_date_gui location (Some d) s) = Ok tt
  /\ clock (snd (show_date_gui location (Some d) s)) = clock s
  /\ trace (snd (show_date_gui location (Some d) s))
     = trace s
       ++ [EGuiClear;
           EGuiSet "date_string"
             (PyStr (if decide (date_format = Some "MDY")
                     then strftime d "%-m/%-d/%Y" else strftime d "%Y/%-d/%-m"));
           EGuiSet "weekday_string" (PyStr (strftime d "%A"));
           EGuiSet "month_string" (PyStr (strftime d "%B %d"));
           EGuiSet "year_string" (PyStr (strftime d "%Y"));
           EGuiShowPage "date.qml"]
  /\ dom (gui (snd (show_date_gui location (Some d) s)))
     = ({["date_string"; "weekday_string"; "month_string"; "year_string"]}
        : gset string).
Proof.
  unfold show_date_gui, get_weekday, get_month_date, get_year.
  run tt tt.
  rewrite (bind_ok _ _ _ _ _ (get_display_date_day d location _)). run tt tt.
  rewrite (bind_ok _ _ _ _ _ (strftime_of_day _ d location _)). run tt tt.
  rewrite (bind_ok _ _ _ _ _ (strftime_of_day _ d location _)). run tt tt.
  rewrite (bind_ok _ _ _ _ _ (strftime_of_day _ d location _)). run tt tt.
  rewrite emit_ok.
  split; [reflexivity |]. split; [reflexivity |].
  split; [norm_state; reflexivity |].
  norm_state. rewrite !dom_insert_L, dom_empty_L. set_solver.
Qed.

(** Asked to show the time of a place that is not found, the skill says
    so and stops: nothing is drawn, the idle display setting is left as
    it was, but the display timezone chosen before is lost. *)
Theorem handle_show_time_unknown_place (place : string) (s : skill)
  (asked : list event) :
  Py.truthy place = true ->
  get_timezone place = (Ok None, asked) ->
  fst (handle_show_time (Some place) s) = Ok tt
  /\ trace (snd (handle_show_time (Some place) s))
     = trace s ++ asked ++ [ESpeakDialog "time.tz.not.found" (Some place)]
  /\ display_tz (snd (handle_show_time (Some place) s)) = None
  /\ show_time (snd (handle_show_time (Some place) s)) = show_time s
  /\ displayed_time (snd (handle_show_time (Some place) s)) = displayed_time s.
Proof.
  intros Hplace Hlost. unfold handle_show_time.
  run tt tt. rewrite Hplace.
  rewrite (bind_ok _ _ _ (add_trace asked (set_display_tz None s)) None)
    by (unfold call; rewrite Hlost; reflexivity).
  rewrite emit_ok.
  split; [reflexivity |]. split; [norm_state; reflexivity |].
  split; [reflexivity |]. split; reflexivity.
Qed.

(** Asked, outside of a query, to show the time of a place that is found,
    the skill enables the idle display, keeps the timezone of the place,
    and draws the time there at once, whoever owns the display, provided
    the text is not empty and is not the one already shown. *)
Theorem handle_show_time_draws (place : string) (s : skill) (tz : tzinfo)
  (asked : list event) :
  Py.truthy place = true ->
  get_timezone place = (Ok (Some tz), asked) ->
  answering_query s = false ->
  displayed_time s <> Some (idle_text tz (S (S (clock s)))) ->
  Py.truthy (idle_text tz (S (S (clock s)))) = true ->
  fst (handle_show_time (Some place) s) = Ok tt
  /\ show_time (snd (handle_show_time (Some place) s)) = true
  /\ display_tz (snd (handle_show_time (Some place) s)) = Some tz
  /\ displayed_time (snd (handle_show_time (Some place) s))
     = Some (idle_text tz (S (S (clock s))))
  /\ active (snd (handle_show_time (Some place) s)) = EmptyString
  /\ trace (snd (handle_show_time (Some place) s))
     = trace s ++ asked ++ clock_writes tz (clock s)
       ++ drawing (idle_text tz (S (S (clock s))))
            (idle_date tz (S (S (S (clock s)))))
       ++ [ERemoveActive].
Proof.
  intros Hplace Hfound Hq Hnew Htext. unfold handle_show_time.
  run tt tt. rewrite Hplace.
  rewrite (bind_ok _ _ _ (add_trace asked (set_display_tz None s)) (Some tz))
    by (unfold call; rewrite Hfound; reflexivity).
  run tt tt. run tt tt.
  set (s1 := set_show_time true _).
  assert (H1 : resolves_to s1 tz) by reflexivity.
  rewrite (update_display_free true s1 tz Hq H1).
  rewrite (arbitrate_forced (refreshed tz s1) tz eq_refl
             (resolves_to_refreshed s1 tz H1) Hnew Htext).
  split; [reflexivity |]. split; [reflexivity |]. split; [reflexivity |].
  split; [reflexivity |]. split; [reflexivity |].
  subst s1. cbn [snd]. unfold set_show_time, set_display_tz.
  norm_state. reflexivity.
Qed.

End PagesCoverage.

(* ===================================================================== *)
(** ** The timer, the local time of a place, the holidays *)
(* ===================================================================== *)

Section ScheduleCoverage.
Import Schedule.

(** The first tick falls on the first full minute after the skill starts,
    and from then on every full minute is the instant of a tick: the idle
    clock is refreshed as each minute begins. *)
Theorem ticks_fall_on_every_minute (now : Z) :
  (now < callback_time now <= now + minute)%Z
  /\ (callback_time now mod minute = 0)%Z
  /\ forall instant : Z,
      (instant mod minute = 0)%Z -> (callback_time now <= instant)%Z ->
      exists k : nat, tick_time now k = instant.
Proof.
  unfold tick_time, callback_time, minute, second.
  pose proof (Z.mod_pos_bound now (60 * 1000000)%Z ltac:(lia)) as Hmod.
  split; [lia |]. split.
  - rewrite (Z.div_mod now (60 * 1000000)%Z) at 1 by lia.
    replace (60 * 1000000 * (now / (60 * 1000000)) + now mod (60 * 1000000)
             - now mod (60 * 1000000) + 60 * 1000000)%Z
      with ((now / (60 * 1000000) + 1) * (60 * 1000000))%Z by lia.
    apply Z.mod_mul. lia.
  - intros instant Hinstant Hlater.
    assert (Hstart : ((now - now mod (60 * 1000000) + 60 * 1000000)
                      mod (60 * 1000000) = 0)%Z).
    { rewrite (Z.div_mod now (60 * 1000000)%Z) at 1 by lia.
      replace (60 * 1000000 * (now / (60 * 1000000)) + now mod (60 * 1000000)
               - now mod (60 * 1000000) + 60 * 1000000)%Z
        with ((now / (60 * 1000000) + 1) * (60 * 1000000))%Z by lia.
      apply Z.mod_mul. lia. }
    apply Z.mod_divide in Hinstant as [q Hq]; [| lia].
    apply Z.mod_divide in Hstart as [p Hp]; [| lia].
    exists (Z.to_nat (6 * (q - p))). rewrite Z2Nat.id by lia. lia.
Qed.

End ScheduleCoverage.

Section PlaceCoverage.
Context `{C : Collaborators}.

(** The local time of a place that is asked for is taken in the timezone
    of the place, whatever the display timezone is.  The timezone of the
    device is still looked up first when no display timezone is set: its
    result is dropped, but the questions it asks are asked. *)
Theorem get_local_datetime_of_place (place : string) (d : datetime)
  (s : skill) (tz : tzinfo) (home : option tzinfo)
  (asked_home asked : list event) :
  Py.truthy place = true ->
  local_timezone s = (Ok home, asked_home) ->
  get_timezone place = (Ok (Some tz), asked) ->
  fst (get_local_datetime (Some place) (Some d) s)
  = Ok (Some (astimezone d tz))
  /\ trace (snd (get_local_datetime (Some place) (Some d) s))
     = trace s ++ asked_home ++ asked
  /\ clock (snd (get_local_datetime (Some place) (Some d) s)) = clock s.
Proof.
  intros Hplace Hhome Hfound. unfold get_local_datetime, local_timezone in *.
  rewrite (bind_ok _ _ s s d) by reflexivity.
  rewrite (bind_ok _ _ _ _ _ (gets_ok _ _)).
  rewrite Hplace.
  destruct (display_tz s) as [own |].
  - injection Hhome as <- <-.
    rewrite (bind_ok _ _ s s (Some own)) by reflexivity.
    rewrite (bind_ok _ _ _ (add_trace asked s) (Some tz))
      by (unfold call; rewrite Hfound; reflexivity).
    split; [reflexivity |]. split; reflexivity.
  - rewrite (bind_ok _ _ _ (add_trace asked_home s) home)
      by (unfold call; rewrite Hhome; reflexivity).
    rewrite (bind_ok _ _ _ (add_trace asked (add_trace asked_home s)) (Some tz))
      by (unfold call; rewrite Hfound; reflexivity).
    unfold mret, M_ret. cbn [fst snd].
    split; [reflexivity |].
    split; [norm_state; reflexivity | reflexivity].
Qed.

End PlaceCoverage.

Section HolidayCoverage.
Context {date : Type}.

Lemma find_app_first {A : Type} (f : A -> bool) (l1 l2 : list A) :
  List.find f (l1 ++ l2)
  = match List.find f l1 with
    | Some a => Some a
    | None => List.find f l2
    end.
Proof.
  induction l1 as [| a l1 IH]; [reflexivity |].
  cbn [app List.find]. destruct (f a); [reflexivity | exact IH].
Qed.

Lemma existsb_key (name : string) (all : list (string * date)) :
  existsb (fun entry => String.eqb name (fst entry)) all = true
  <-> exists d, In (name, d) all.
Proof.
  rewrite existsb_exists. split.
  - intros [[key d] [Hin Hkey]]. apply String.eqb_eq in Hkey.
    cbn [fst] in Hkey. subst key. exists d. exact Hin.
  - intros [d Hin]. exists (name, d). split; [exact Hin |].
    apply String.eqb_refl.
Qed.

Lemma add_state_first_dates (state : list (date * string))
  (all : list (string * date)) (read : list (date * string)) :
  first_dates all read -> first_dates (add_state all state) (read ++ state).
Proof.
  revert all read. induction state as [| [d name] state IH];
    intros all read Hinv.
  - rewrite app_nil_r. exact Hinv.
  - cbn [add_state].
    replace (read ++ (d, name) :: state)
      with ((read ++ [(d, name)]) ++ state)
      by (rewrite <- app_assoc; reflexivity).
    destruct (existsb (fun entry => String.eqb name (fst entry)) all) eqn:Hkey.
    + apply IH. apply existsb_key in Hkey as [d0 Hd0].
      intros name' d'. rewrite (Hinv name' d'), find_app_first.
      destruct (List.find (listing name') read) as [found |] eqn:Hfound;
        [reflexivity |].
      cbn [List.find]. unfold listing. cbn [snd].
      destruct (String.eqb_spec name' name) as [-> | Hother];
        [| split; discriminate].
      apply Hinv in Hd0. rewrite Hd0 in Hfound. discriminate.
    + apply IH. intros name' d'. rewrite find_app_first.
      split.
      * intros Hin. apply in_app_or in Hin as [Hin | [[= <- <-] | []]].
        -- apply Hinv in Hin. rewrite Hin. reflexivity.
        -- destruct (List.find (listing name) read) as [[d0 found] |] eqn:Hfound.
           ++ exfalso. pose proof Hfound as Hname.
              apply find_some in Hname as [_ Hname]. unfold listing in Hname.
              apply String.eqb_eq in Hname. cbn [snd] in Hname. subst found.
              apply Hinv in Hfound.
              assert (Hyes : existsb (fun entry => String.eqb name (fst entry)) all
                             = true)
                by (apply existsb_key; exists d0; exact Hfound).
              congruence.
           ++ cbn [List.find]. unfold listing. cbn [snd]. rewrite String.eqb_refl. reflexivity.
      * destruct (List.find (listing name') read) as [found |] eqn:Hfound.
        -- intros [= ->]. apply in_or_app. left. apply Hinv. exact Hfound.
        -- cbn [List.find]. unfold listing. cbn [snd].
           destruct (String.eqb_spec name' name) as [-> | Hother];
             [| discriminate].
           intros [= <-]. apply in_or_app. right. left. reflexivity.
Qed.

Lemma all_holidays_first_dates (states : list (list (date * string))) :
  first_dates (all_holidays states) (concat states).
Proof.
  unfold all_holidays.
  assert (Hgen : forall all read,
             first_dates all read ->
             first_dates (fold_left add_state states all)
                         (read ++ concat states)).
  { induction states as [| state states IH]; intros all read Hinv.
    - cbn. rewrite app_nil_r. exact Hinv.
    - cbn [fold_left concat]. rewrite app_assoc. apply IH.
      apply add_state_first_dates. exact Hinv. }
  apply (Hgen [] []). intros name d. split; [intros [] | discriminate].
Qed.

(** A holiday is found exactly when the utterance holds the stem of a
    holiday listed for some state; the date returned is the one of the
    first listing of that holiday, the states being read in their order. *)
Theorem requested_holiday_is_listed (states : list (list (date * string)))
  (utt : string) :
  (forall d, requested_holiday states utt = Some d ->
     exists state name,
       In state states /\ In (d, name) state
       /\ PyText.contains (stem name) utt = true
       /\ List.find (fun entry => String.eqb name (snd entry)) (concat states)
          = Some (d, name))
  /\ (forall state d name,
        In state states -> In (d, name) state ->
        PyText.contains (stem name) utt = true ->
        exists d', requested_holiday states utt = Some d').
Proof.
  unfold requested_holiday. split.
  - intros d Hfound.
    destruct (List.find (fun entry => PyText.contains (stem (fst entry)) utt)
                        (all_holidays states)) as [[name d0] |] eqn:Hfind;
      [| discriminate].
    injection Hfound as ->.
    apply find_some in Hfind as [Hin Hstem]. cbn [fst] in Hstem.
    apply all_holidays_first_dates in Hin. pose proof Hin as Hfirst.
    apply find_some in Hin as [Hin _].
    apply in_concat in Hin as (state & Hstate & Hentry).
    exists state, name. auto.
  - intros state d name Hstate Hentry Hstem.
    assert (Hlisted : In (d, name) (concat states))
      by (apply in_concat; exists state; auto).
    destruct (List.find (listing name) (concat states)) as [[d0 found] |]
      eqn:Hfirst.
    + pose proof Hfirst as Hname. apply find_some in Hname as [_ Hname].
      unfold listing in Hname. apply String.eqb_eq in Hname.
      cbn [snd] in Hname. subst found.
      apply all_holidays_first_dates in Hfirst.
      destruct (List.find (fun entry => PyText.contains (stem (fst entry)) utt)
                          (all_holidays states)) as [[name' d'] |] eqn:Hfind.
      * exists d'. reflexivity.
      * exfalso. apply (find_none _ _ Hfind) in Hfirst.
        cbn [fst] in Hfirst. congruence.
    + exfalso. apply (find_none _ _ Hfirst) in Hlisted.
      unfold listing in Hlisted. cbn [snd] in Hlisted.
      rewrite String.eqb_refl in Hlisted. discriminate.
Qed.

End HolidayCoverage.

(* ===================================================================== *)
(** ** The household, once more *)
(* ===================================================================== *)

Section CoverageScenarios.
Import Scenario Household.

Lemma get_timezone_result_from_pytz_witness :
  let C := home_world in
  fst (get_timezone_in china catalog "China") = Ok (Some "Asia/Shanghai")
  /\ exists zone : string,
      pytz_timezone zone = Some "Asia/Shanghai"
      /\ (astral_timezone "China" = Some zone
          \/ zone = "China"
          \/ (exists key value : string,
                 In (key, PyStr value) china
                 /\ Py.lower "China" = Py.lower key
                 /\ zone = Py.strip value)
          \/ In zone catalog).
Proof.
  intros C. split; [reflexivity |].
  exact (get_timezone_result_from_pytz (C := C) china catalog "China"
           "Asia/Shanghai" eq_refl).
Defined.

Lemma get_timezone_ignores_case_witness :
  let C := home_world in
  Py.lower "SYDNEY" = Py.lower "sydney"
  /\ get_timezone_in china catalog "SYDNEY"
     = get_timezone_in china catalog "sydney".
Proof.
  intros C. split; [reflexivity |].
  exact (get_timezone_ignores_case (C := C) china catalog "SYDNEY" "sydney"
           eq_refl eq_refl eq_refl eq_refl eq_refl).
Defined.

Lemma alias_hit_is_final_witness :
  let C := home_world in
  astral_timezone "China" ≫= pytz_timezone = None
  /\ pytz_timezone "China" = None
  /\ alias_lookup_by Py.lower [("china", PyInt 8)] "China"
     = Some ("china", PyInt 8)
  /\ snd (get_timezone_by Py.lower Py.strip [("china", PyInt 8)] catalog
            "China") = []
  /\ fst (get_timezone_by Py.lower Py.strip [("china", PyInt 8)] catalog
            "China")
     = Raise AttributeError.
Proof.
  intros C.
  destruct (alias_hit_is_final (C := C) Py.lower Py.strip
              [("china", PyInt 8)] catalog "China"
              "china" (PyInt 8) eq_refl eq_refl eq_refl)
    as (Hsilent & Hraise & _).
  split; [reflexivity |]. split; [reflexivity |]. split; [reflexivity |].
  split; [exact Hsilent |].
  apply Hraise. discriminate.
Defined.

(** Asked for the time in Sydney, a device whose own timezone is not
    found draws the clock strings and then raises on the date: the query
    flag is left up. *)
Example query_window_left_open :
  let C := lost_world in
  fst (handle_query_time_show (Some "sydney") [false] fresh)
  = Raise AttributeError
  /\ answering_query
       (snd (handle_query_time_show (Some "sydney") [false] fresh))
     = true.
Proof. intros C. split; vm_compute; reflexivity. Qed.

Lemma disabled_tick_erases_witness :
  let C := home_world in
  answering_query switched_off = false
  /\ show_time switched_off = false
  /\ resolves_to switched_off "America/Denver"
  /\ trace (snd (update_display false switched_off))
     = clock_writes "America/Denver" 0 ++ [EMouthReset; ERemoveActive]
  /\ displayed_time (snd (update_display false switched_off)) = None.
Proof.
  intros C.
  destruct (disabled_tick_erases (C := C) false switched_off "America/Denver"
              eq_refl eq_refl eq_refl) as (_ & Htrace & Hshown).
  split; [reflexivity |]. split; [reflexivity |]. split; [reflexivity |].
  split; [exact Htrace | exact Hshown].
Defined.

Lemma forced_tick_draws_witness :
  let C := home_world in
  answering_query busy_stale = false
  /\ show_time busy_stale = true
  /\ active busy_stale = "WeatherSkill"
  /\ resolves_to busy_stale "America/Denver"
  /\ idle_text "America/Denver" 2 = "12:30"
  /\ displayed_time (snd (update_display true busy_stale)) = Some "12:30"
  /\ active (snd (update_display true busy_stale)) = EmptyString.
Proof.
  intros C.
  assert (Hnew : displayed_time busy_stale <> Some (idle_text "America/Denver" 2))
    by discriminate.
  destruct (forced_tick_draws (C := C) busy_stale "America/Denver"
              eq_refl eq_refl eq_refl Hnew eq_refl) as (_ & _ & Hshown & Hfree).
  split; [reflexivity |]. split; [reflexivity |]. split; [reflexivity |].
  split; [reflexivity |]. split; [reflexivity |].
  split; [exact Hshown | exact Hfree].
Defined.

Lemma unresolved_tick_raises_witness :
  let C := lost_world in
  answering_query fresh = false
  /\ local_timezone fresh = (Ok None, [])
  /\ fst (update_display false fresh) = Raise AttributeError
  /\ gui (snd (update_display false fresh)) !! "time_string" = Some PyNone.
Proof.
  intros C.
  destruct (unresolved_tick_raises (C := C) false fresh [] eq_refl eq_refl)
    as (Hraise & _ & Hgui & _).
  split; [reflexivity |]. split; [reflexivity |].
  split; [exact Hraise | exact Hgui].
Defined.

Lemma display_resets_gui_keys_witness :
  let C := home_world in
  Py.truthy "12:30" = true
  /\ resolves_to fresh "America/Denver"
  /\ dom (gui (snd (display (Some "12:30") fresh)))
     = ({["time_string"; "ampm_string"; "date_string"]} : gset string).
Proof.
  intros C.
  destruct (display_resets_gui_keys (C := C) fresh "America/Denver" "12:30"
              eq_refl eq_refl) as (_ & Hkeys & _).
  split; [reflexivity |]. split; [reflexivity | exact Hkeys].
Defined.

Lemma clock_text_is_centred_witness :
  Mark1.clock_text "12:30"
  /\ length (fst (Mark1.draw_glyphs "12:30" (Mark1.first_offset "12:30"))) = 5
  /\ (32 - snd (Mark1.draw_glyphs "12:30" (Mark1.first_offset "12:30"))
      = Mark1.first_offset "12:30")%Z.
Proof.
  assert (Hclock : Mark1.clock_text "12:30") by (split; reflexivity).
  split; [exact Hclock |].
  exact (clock_text_is_centred "12:30" Hclock).
Defined.

Lemma blanks_frame_the_glyphs_witness :
  Mark1.clock_text "9:05"
  /\ String.length "9:05" = 4
  /\ exists left right : Mark1.mouth_display,
      Mark1.blanks "9:05" = [left; right]
      /\ Mark1.x left = 0%Z
      /\ Mark1.img_width (Mark1.img_code left) = Mark1.first_offset "9:05"
      /\ (Mark1.x right + 1
          = snd (Mark1.draw_glyphs "9:05" (Mark1.first_offset "9:05")))%Z
      /\ (Mark1.x right + Mark1.img_width (Mark1.img_code right) = 31)%Z
      /\ forall alarm,
          (Mark1.x right <= Mark1.x (Mark1.alarm_dot alarm)
           /\ Mark1.x (Mark1.alarm_dot alarm)
              + Mark1.img_width (Mark1.img_code (Mark1.alarm_dot alarm))
              <= 31)%Z.
Proof.
  assert (Hclock : Mark1.clock_text "9:05") by (split; reflexivity).
  split; [exact Hclock |]. split; [reflexivity |].
  exact (blanks_frame_the_glyphs "9:05" Hclock (or_introl eq_refl)).
Defined.

Lemma spoken_time_spells_AM_witness :
  let C := home_world in
  fst (get_spoken_current_time voice (Some "Paris") None false fresh)
  = Ok (Some "12:30 A.M.")
  /\ PyText.contains_pair "A" "M" "12:30 A.M." = false.
Proof.
  intros C.
  assert (Hsaid : fst (get_spoken_current_time voice (Some "Paris") None
                         false fresh) = Ok (Some "12:30 A.M."))
    by (vm_compute; reflexivity).
  split; [exact Hsaid |].
  exact (proj1 (spoken_time_spells_AM (C := C) voice (Some "Paris") None false
                  fresh "12:30 A.M." eq_refl Hsaid)).
Defined.

Lemma comment_lines_are_skipped_witness :
  PyText.is_comment (Py.strip "# where the time is asked for") = true
  /\ _extract_location search (Some location_rx) "what time is it in paris"
     = _extract_location search
         (Some ["time"; "  in (?P<Location>.*)"; "at (?P<Location>.*)"])
         "what time is it in paris".
Proof.
  split; [reflexivity |].
  exact (comment_lines_are_skipped search []
           ["time"; "  in (?P<Location>.*)"; "at (?P<Location>.*)"]
           "# where the time is asked for" "what time is it in paris" eq_refl).
Defined.

Lemma first_location_group_wins_witness :
  PyText.is_comment (Py.strip "  in (?P<Location>.*)") = false
  /\ search (Py.strip "  in (?P<Location>.*)") "what time is it in paris"
     = MatchGroup (Some "paris")
  /\ _extract_location search (Some location_rx) "what time is it in paris"
     = Some "paris".
Proof.
  assert (Hbefore : Forall (fun pat =>
            PyText.is_comment (Py.strip pat) = true
            \/ search (Py.strip pat) "what time is it in paris" = NoMatch
            \/ search (Py.strip pat) "what time is it in paris"
               = MatchWithoutGroup)
            ["# where the time is asked for"; "time"]).
  { constructor; [left; reflexivity |].
    constructor; [right; right; reflexivity | constructor]. }
  split; [reflexivity |]. split; [reflexivity |].
  exact (first_location_group_wins search
           ["# where the time is asked for"; "time"] ["at (?P<Location>.*)"]
           "  in (?P<Location>.*)" "what time is it in paris" (Some "paris")
           Hbefore eq_refl eq_refl).
Defined.

Lemma handle_idle_reads_clock_five_times_witness :
  let C := home_world in
  resolves_to fresh "America/Denver"
  /\ fst (handle_idle fresh) = Ok tt
  /\ clock (snd (handle_idle fresh)) = 5.
Proof.
  intros C.
  destruct (handle_idle_reads_clock_five_times (C := C) fresh "America/Denver"
              eq_refl) as (Hok & Hclock & _).
  split; [reflexivity |]. split; [exact Hok | exact Hclock].
Defined.

Lemma handle_show_time_unknown_place_witness :
  let C := home_world in
  Py.truthy "qqq" = true
  /\ get_timezone "qqq" = (Ok None, [])
  /\ trace (snd (handle_show_time (Some "qqq") enabled))
     = [ESpeakDialog "time.tz.not.found" (Some "qqq")]
  /\ display_tz (snd (handle_show_time (Some "qqq") enabled)) = None.
Proof.
  intros C.
  assert (Hlost : get_timezone "qqq" = (Ok None, []))
    by (vm_compute; reflexivity).
  destruct (handle_show_time_unknown_place (C := C) "qqq" enabled [] eq_refl
              Hlost) as (_ & Htrace & Htz & _).
  split; [reflexivity |]. split; [exact Hlost |].
  split; [exact Htrace | exact Htz].
Defined.

Lemma handle_show_time_draws_witness :
  let C := home_world in
  Py.truthy "Paris" = true
  /\ get_timezone "Paris" = (Ok (Some "Europe/Paris"), [])
  /\ answering_query busy_stale = false
  /\ show_time (snd (handle_show_time (Some "Paris") busy_stale)) = true
  /\ display_tz (snd (handle_show_time (Some "Paris") busy_stale))
     = Some "Europe/Paris"
  /\ displayed_time (snd (handle_show_time (Some "Paris") busy_stale))
     = Some "12:30".
Proof.
  intros C.
  assert (Hnew : displayed_time busy_stale <> Some (idle_text "Europe/Paris" 2))
    by discriminate.
  destruct (handle_show_time_draws (C := C) "Paris" busy_stale "Europe/Paris" []
              eq_refl eq_refl eq_refl Hnew eq_refl)
    as (_ & Hshow & Htz & Hshown & _).
  split; [reflexivity |]. split; [reflexivity |]. split; [reflexivity |].
  split; [exact Hshow |]. split; [exact Htz | exact Hshown].
Defined.

Lemma ticks_fall_on_every_minute_witness :
  (125000000 mod Schedule.minute = 5000000)%Z
  /\ Schedule.callback_time 125000000 = 180000000%Z
  /\ (240000000 mod Schedule.minute = 0)%Z
  /\ exists k : nat, Schedule.tick_time 125000000 k = 240000000%Z.
Proof.
  destruct (ticks_fall_on_every_minute 125000000) as (_ & _ & Hminute).
  split; [reflexivity |]. split; [reflexivity |]. split; [reflexivity |].
  apply Hminute; [reflexivity | discriminate].
Defined.

Lemma get_local_datetime_of_place_witness :
  let C := home_world in
  Py.truthy "Paris" = true
  /\ local_timezone fresh = (Ok (Some "America/Denver"), [])
  /\ get_timezone "Paris" = (Ok (Some "Europe/Paris"), [])
  /\ fst (get_local_datetime (Some "Paris") (Some 45) fresh)
     = Ok (Some (astimezone 45 "Europe/Paris")).
Proof.
  intros C.
  destruct (get_local_datetime_of_place (C := C) "Paris" 45 fresh
              "Europe/Paris" (Some "America/Denver") [] []
              eq_refl eq_refl eq_refl) as (Hdt & _).
  split; [reflexivity |]. split; [reflexivity |]. split; [reflexivity |].
  exact Hdt.
Defined.

Lemma requested_holiday_is_listed_witness :
  requested_holiday two_states "what day is christmas" = Some 1225
  /\ exists state name,
      In state two_states /\ In (1225, name) state
      /\ PyText.contains (stem name) "what day is christmas" = true
      /\ List.find (fun entry => String.eqb name (snd entry)) (concat two_states)
         = Some (1225, name).
Proof.
  assert (Hfound : requested_holiday two_states "what day is christmas"
                   = Some 1225) by (vm_compute; reflexivity).
  split; [exact Hfound |].
  exact (proj1 (requested_holiday_is_listed two_states "what day is christmas")
           1225 Hfound).
Defined.

End CoverageScenarios.
